(** * Asana to Google Drive backup agent: a shallow embedding of [index.js]

    The agent is a sequential orchestration of two external HTTP services:
    the project-source service (Asana) and the destination store (Google
    Drive and Sheets).  The embedding keeps the shape of the source:

    - nullable JavaScript strings are [option string] ([None] stands for
      [undefined] and [null]), tested with JavaScript truthiness;
    - the [async] functions live in a small state-and-exception monad [M]
      over a [World] that holds the two services, the clock and the
      process environment;
    - the [do ... while] pagination loop is a fuelled fixpoint: running out
      of fuel is the outcome [Diverge], which no [try ... catch] intercepts.

    [console.log] and [console.error] have no effect on any value the
    program returns and are left out.  So is the code the module runs when
    it is loaded (parsing the service-account key, building the two API
    clients, listening on the port): the handlers below are those of a
    process that has started. *)

From Stdlib Require Import String Ascii List Arith Lia Bool DecimalString.
Import ListNotations.
Open Scope string_scope.

(** ** JavaScript values used by the agent *)

Module JS.

(** A value of JavaScript type [string | null | undefined]. *)
Definition nullable := option string.

(** Truthiness: [undefined], [null] and the empty string are falsy. *)
Definition truthy (v : nullable) : bool :=
  match v with
  | Some s => negb (s =? "")
  | None => false
  end.

(** Truthiness of a [boolean | undefined] flag. *)
Definition flag (b : option bool) : bool :=
  match b with
  | Some true => true
  | _ => false
  end.

(** [a || b]. *)
Definition or (a b : nullable) : nullable :=
  if truthy a then a else b.

(** [x?.f]: the field of an object that may be [null] or [undefined]. *)
Definition chain {A B : Type} (x : option A) (f : A -> option B) : option B :=
  match x with
  | Some a => f a
  | None => None
  end.

(** How [Array.prototype.join] and template literals print an element. *)
Definition elem (v : nullable) : string :=
  match v with
  | Some s => s
  | None => ""
  end.

(** [arr.join(sep)]: [undefined] and [null] elements print as the empty
    string. *)
Fixpoint join (sep : string) (arr : list nullable) : string :=
  match arr with
  | [] => ""
  | [x] => elem x
  | x :: rest => elem x ++ sep ++ join sep rest
  end.

(** [`${v}`] inside a template literal; a missing value is read as
    [undefined], which is what an unset environment variable and a field
    left out of a response are. *)
Definition interp (v : nullable) : string :=
  match v with
  | Some s => s
  | None => "undefined"
  end.

(** [!!v]. *)
Definition bangbang (v : nullable) : bool := truthy v.

(** [s.split(c)[0]] for a one-character separator [c]. *)
Fixpoint split_head (c : ascii) (s : string) : string :=
  match s with
  | EmptyString => EmptyString
  | String a s' => if Ascii.eqb a c then EmptyString else String a (split_head c s')
  end.

End JS.

Infix "|||" := JS.or (at level 50, left associativity).
Notation "x ?. f" := (JS.chain x f) (at level 40, left associativity).

(** ** Data model *)

(** A cell of a spreadsheet row, as serialised in the request body. *)
Inductive Cell : Type :=
| CStr (s : string)
| CNum (n : nat)
| CNull.

(** A JavaScript value placed in a row: [undefined] serialises as [null]. *)
Definition cell (v : JS.nullable) : Cell :=
  match v with
  | Some s => CStr s
  | None => CNull
  end.

Module Tag.
Record t : Type := mk { gid : string; name : JS.nullable }.
End Tag.

Module Assignee.
Record t : Type := mk { gid : string; name : JS.nullable }.
End Assignee.

(** The task fields requested with [opt_fields]; [custom_fields] is
    requested but never read. *)
Module Task.
Record t : Type := mk {
  gid : string;
  name : JS.nullable;
  completed : option bool;
  completed_at : JS.nullable;
  due_on : JS.nullable;
  due_at : JS.nullable;
  assignee : option Assignee.t;
  notes : JS.nullable;
  tags : option (list Tag.t);
  created_at : JS.nullable;
  modified_at : JS.nullable;
  permalink_url : JS.nullable
}.
End Task.

Module Owner.
Record t : Type := mk { gid : string; name : JS.nullable }.
End Owner.

Module Project.
Record t : Type := mk {
  gid : string;
  name : JS.nullable;
  created_at : JS.nullable;
  modified_at : JS.nullable;
  archived : option bool;
  notes : JS.nullable;
  owner : option Owner.t
}.
End Project.

(** The per-project outcome pushed on [backupResults]. *)
Module BackupResult.
Record t : Type := mk {
  project : JS.nullable;
  status : string;
  tasksCount : option nat;
  folderId : option string;
  spreadsheetId : option string;
  timestamp : option string;
  error : option string
}.
End BackupResult.

Module Summary.
Record t : Type := mk {
  timestamp : string;
  totalProjects : nat;
  successful : nat;
  failed : nat;
  results : list BackupResult.t
}.
End Summary.

(** ** Row projection ([createTasksSpreadsheet], lines 219-261) *)

Definition headers : list Cell :=
  [ CStr "Task Name"; CStr "Status"; CStr "Assignee"; CStr "Due Date";
    CStr "Completed Date"; CStr "Tags"; CStr "Notes"; CStr "URL";
    CStr "Created At"; CStr "Modified At" ].

(** [task.tags?.map(t => t.name).join(', ')]. *)
Definition tagsJoined (task : Task.t) : JS.nullable :=
  Task.tags task ?. (fun ts => Some (JS.join ", " (map Tag.name ts))).

(** The arrow function mapped over [tasks]. *)
Definition taskRow (task : Task.t) : list Cell :=
  [ cell (Task.name task ||| Some "");
    cell (if JS.flag (Task.completed task) then Some "Completed" else Some "Incomplete");
    cell (Task.assignee task ?. Assignee.name ||| Some "Unassigned");
    cell (Task.due_on task ||| Task.due_at task ||| Some "");
    cell (Task.completed_at task ||| Some "");
    cell (tagsJoined task ||| Some "");
    cell (Task.notes task ||| Some "");
    cell (Task.permalink_url task ||| Some "");
    cell (Task.created_at task ||| Some "");
    cell (Task.modified_at task ||| Some "") ].

Definition rows (tasks : list Task.t) : list (list Cell) := map taskRow tasks.

(** [values: [headers, ...rows]]. *)
Definition tasksValues (tasks : list Task.t) : list (list Cell) :=
  headers :: rows tasks.

(** The [projectInfo] array; [backupDate] is [new Date().toISOString()]. *)
Definition projectInfo (project : Project.t) (tasks : list Task.t)
    (backupDate : string) : list (list Cell) :=
  [ [CStr "Project Name"; cell (Project.name project)];
    [CStr "Project ID"; CStr (Project.gid project)];
    [CStr "Created At"; cell (Project.created_at project)];
    [CStr "Modified At"; cell (Project.modified_at project)];
    [CStr "Owner"; cell (Project.owner project ?. Owner.name ||| Some "N/A")];
    [CStr "Archived"; cell (if JS.flag (Project.archived project) then Some "Yes" else Some "No")];
    [CStr "Notes"; cell (Project.notes project ||| Some "")];
    [CStr "Backup Date"; CStr backupDate];
    [CStr "Total Tasks"; CNum (length tasks)];
    [CStr "Completed Tasks";
     CNum (length (filter (fun t => JS.flag (Task.completed t)) tasks))];
    [CStr "Incomplete Tasks";
     CNum (length (filter (fun t => negb (JS.flag (Task.completed t))) tasks))] ].

(** ** The process environment ([process.env]) *)

Record Env : Type := {
  ASANA_ACCESS_TOKEN : JS.nullable;
  ASANA_WORKSPACE_ID : JS.nullable;
  GOOGLE_DRIVE_FOLDER_ID : JS.nullable;
  GOOGLE_SERVICE_ACCOUNT_KEY : JS.nullable
}.

(** ** The project-source service *)

(** What [axios.get] sends: the URL, the [Authorization] header and the
    query parameters.  A parameter whose value is [null] is not sent. *)
Record AsanaRequest : Type := {
  url : string;
  authorization : string;
  opt_fields : string;
  limit : option nat;
  offset : JS.nullable
}.

Module NextPage.
Record t : Type := mk { offset : JS.nullable; path : string; uri : string }.
End NextPage.

(** [response.data] of the task endpoint. *)
Record TasksBody : Type := {
  data : list Task.t;
  next_page : option NextPage.t
}.

(** An HTTP exchange either delivers a body or makes the client throw an
    error with a message. *)
Inductive Reply (A : Type) : Type :=
| Body (a : A)
| HttpError (message : string).
Arguments Body {A} a.
Arguments HttpError {A} message.

(** The service answers a request knowing the requests it has received
    before (it may be stateful). *)
Record Asana : Type := {
  projects_api : list AsanaRequest -> AsanaRequest -> Reply (list Project.t);
  tasks_api : list AsanaRequest -> AsanaRequest -> Reply TasksBody
}.

(** ** The destination store *)

Record DriveFile : Type := {
  id : string;
  name : string;
  mimeType : string;
  parents : list string;
  trashed : bool
}.

Record Sheet : Type := {
  sheet_title : string;
  frozenRowCount : nat;
  values : list (list Cell)
}.

(** The two requests of the formatting [batchUpdate]; colours are kept in
    hundredths. *)
Inductive FormatRequest : Type :=
| RepeatCell (sheetId startRowIndex endRowIndex : nat)
    (backgroundColor foregroundColor : nat * nat * nat) (bold : bool)
| AutoResizeDimensions (sheetId startIndex endIndex : nat).

Record Spreadsheet : Type := {
  spreadsheetId : string;
  title : string;
  sheets : list Sheet;
  formatting : list FormatRequest
}.

Record Drive : Type := {
  files : list DriveFile;
  documents : list Spreadsheet;
  next_id : nat
}.

Definition folderMime : string := "application/vnd.google-apps.folder".
Definition spreadsheetMime : string := "application/vnd.google-apps.spreadsheet".

(** ** The world and the monad of [async] functions *)

Record World : Type := {
  env : Env;
  asana : Asana;
  asana_log : list AsanaRequest;
  drive : Drive;
  (** the [n]-th call to the destination store fails with this message *)
  drive_faults : nat -> option string;
  drive_calls : nat;
  (** the ISO string of the [n]-th reading of the clock *)
  clock : nat -> string;
  ticks : nat
}.

Definition set_asana_log (l : list AsanaRequest) (w : World) : World :=
  {| env := env w; asana := asana w; asana_log := l; drive := drive w;
     drive_faults := drive_faults w; drive_calls := drive_calls w;
     clock := clock w; ticks := ticks w |}.

Definition set_drive (d : Drive) (w : World) : World :=
  {| env := env w; asana := asana w; asana_log := asana_log w; drive := d;
     drive_faults := drive_faults w; drive_calls := drive_calls w;
     clock := clock w; ticks := ticks w |}.

Definition set_drive_calls (n : nat) (w : World) : World :=
  {| env := env w; asana := asana w; asana_log := asana_log w; drive := drive w;
     drive_faults := drive_faults w; drive_calls := n;
     clock := clock w; ticks := ticks w |}.

Definition set_ticks (n : nat) (w : World) : World :=
  {| env := env w; asana := asana w; asana_log := asana_log w; drive := drive w;
     drive_faults := drive_faults w; drive_calls := drive_calls w;
     clock := clock w; ticks := n |}.

(** How an [async] call ends: with a value, with a thrown [Error] (only its
    [message] is ever read), or not at all. *)
Inductive Outcome (A : Type) : Type :=
| Ok (a : A)
| Throw (message : string)
| Diverge.
Arguments Ok {A} a.
Arguments Throw {A} message.
Arguments Diverge {A}.

Definition M (A : Type) : Type := World -> Outcome A * World.

Definition ret {A : Type} (a : A) : M A := fun w => (Ok a, w).

Definition bind {A B : Type} (m : M A) (k : A -> M B) : M B :=
  fun w =>
    match m w with
    | (Ok a, w') => k a w'
    | (Throw e, w') => (Throw e, w')
    | (Diverge, w') => (Diverge, w')
    end.

Definition throw {A : Type} (message : string) : M A := fun w => (Throw message, w).

Definition diverge {A : Type} : M A := fun w => (Diverge, w).

(** [try { body } catch (error) { handler(error.message) }]. *)
Definition try_catch {A : Type} (body : M A) (handler : string -> M A) : M A :=
  fun w =>
    match body w with
    | (Throw e, w') => handler e w'
    | r => r
    end.

Declare Scope async_scope.
Delimit Scope async_scope with async.
Notation "x <- m ;; k" := (bind m (fun x => k))
  (at level 61, m at next level, right associativity) : async_scope.
Notation "m ;;; k" := (bind m (fun _ => k))
  (at level 61, right associativity) : async_scope.
Open Scope async_scope.

Definition getEnv {A : Type} (f : Env -> A) : M A := fun w => (Ok (f (env w)), w).

(** [new Date().toISOString()]. *)
Definition new_Date_toISOString : M string :=
  fun w => (Ok (clock w (ticks w)), set_ticks (S (ticks w)) w).

(** [await axios.get(...)] against one endpoint of the source service. *)
Definition axios_get {A : Type}
    (endpoint : Asana -> list AsanaRequest -> AsanaRequest -> Reply A)
    (request : AsanaRequest) : M A :=
  fun w =>
    let w' := set_asana_log (asana_log w ++ [request])%list w in
    match endpoint (asana w) (asana_log w) request with
    | Body a => (Ok a, w')
    | HttpError message => (Throw message, w')
    end.

(** One awaited call to the destination store: the store may fail before
    acting (network, quota); otherwise the operation acts on its state. *)
Definition drive_call {A : Type} (op : Drive -> Outcome A * Drive) : M A :=
  fun w =>
    let w1 := set_drive_calls (S (drive_calls w)) w in
    match drive_faults w (drive_calls w) with
    | Some message => (Throw message, w1)
    | None => let (r, d) := op (drive w) in (r, set_drive d w1)
    end.

(** ** Project-source client (lines 80-123) *)

Definition projectsRequest (e : Env) : AsanaRequest :=
  {| url := "https://app.asana.com/api/1.0/workspaces/"
            ++ JS.interp (ASANA_WORKSPACE_ID e) ++ "/projects";
     authorization := "Bearer " ++ JS.interp (ASANA_ACCESS_TOKEN e);
     opt_fields := "name,created_at,modified_at,archived,notes,owner.name";
     limit := None;
     offset := None |}.

Definition fetchAsanaProjects : M (list Project.t) :=
  e <- getEnv (fun e => e);;
  response <- axios_get projects_api (projectsRequest e);;
  ret response.

Definition tasksRequest (e : Env) (projectGid : string) (offset : JS.nullable)
    : AsanaRequest :=
  {| url := "https://app.asana.com/api/1.0/projects/" ++ projectGid ++ "/tasks";
     authorization := "Bearer " ++ JS.interp (ASANA_ACCESS_TOKEN e);
     opt_fields := "name,completed,completed_at,due_on,due_at,assignee.name,notes,tags.name,custom_fields,created_at,modified_at,permalink_url";
     limit := Some 100;
     offset := offset |}.

(** The [do { ... } while (offset)] loop: [tasks] and [offset] are the two
    variables it mutates. *)
Fixpoint fetchLoop (fuel : nat) (projectGid : string) (tasks : list Task.t)
    (offset : JS.nullable) : M (list Task.t) :=
  match fuel with
  | O => diverge
  | S fuel' =>
      e <- getEnv (fun e => e);;
      response <- axios_get tasks_api (tasksRequest e projectGid offset);;
      let tasks := (tasks ++ data response)%list in
      let offset := next_page response ?. NextPage.offset in
      if JS.truthy offset then fetchLoop fuel' projectGid tasks offset
      else ret tasks
  end.

Definition fetchProjectTasks (fuel : nat) (projectGid : string) : M (list Task.t) :=
  fetchLoop fuel projectGid [] None.

(** ** The search language of the destination store

    [findOrCreateFolder] sends its search as a text in the store's query
    language; what the search selects is what the store reads in that text.
    The model covers the fragment the agent uses: comparisons joined by
    [and], with string literals in single quotes in which a backslash
    escapes the character that follows it (the store's documented way to
    put a quote inside a literal).  A text outside the grammar is rejected
    by the store and the call throws. *)

Inductive Token : Type :=
| TString (s : string)
| TWord (w : string)
| TEq.

Inductive LexState : Type :=
| Idle
| InWord (w : string)
| InString (acc : string)
| Escaped (acc : string).

Definition snoc (s : string) (c : ascii) : string := s ++ String c EmptyString.

Fixpoint lex (st : LexState) (q : string) : option (list Token) :=
  match q with
  | EmptyString =>
      match st with
      | Idle => Some []
      | InWord w => Some [TWord w]
      | InString _ | Escaped _ => None
      end
  | String c q' =>
      match st with
      | Idle =>
          if Ascii.eqb c " " then lex Idle q'
          else if Ascii.eqb c "'" then lex (InString EmptyString) q'
          else if Ascii.eqb c "=" then option_map (cons TEq) (lex Idle q')
          else lex (InWord (String c EmptyString)) q'
      | InWord w =>
          if Ascii.eqb c " " then option_map (cons (TWord w)) (lex Idle q')
          else if Ascii.eqb c "'" then
            option_map (cons (TWord w)) (lex (InString EmptyString) q')
          else if Ascii.eqb c "=" then
            option_map (fun ts => TWord w :: TEq :: ts) (lex Idle q')
          else lex (InWord (snoc w c)) q'
      | InString acc =>
          if Ascii.eqb c "\" then lex (Escaped acc) q'
          else if Ascii.eqb c "'" then option_map (cons (TString acc)) (lex Idle q')
          else lex (InString (snoc acc c)) q'
      | Escaped acc => lex (InString (snoc acc c)) q'
      end
  end.

Inductive Term : Type :=
| NameIs (s : string)
| MimeTypeIs (s : string)
| InParents (s : string)
| TrashedIs (b : bool).

Definition term (a b c : Token) : option Term :=
  match a, b, c with
  | TWord f, TEq, TString v =>
      if f =? "name" then Some (NameIs v)
      else if f =? "mimeType" then Some (MimeTypeIs v)
      else None
  | TWord f, TEq, TWord v =>
      if f =? "trashed" then
        if v =? "true" then Some (TrashedIs true)
        else if v =? "false" then Some (TrashedIs false)
        else None
      else None
  | TString v, TWord o, TWord f =>
      if (o =? "in") && (f =? "parents") then Some (InParents v) else None
  | _, _, _ => None
  end.

Fixpoint parse (ts : list Token) : option (list Term) :=
  match ts with
  | a :: b :: c :: rest =>
      match term a b c with
      | None => None
      | Some t =>
          match rest with
          | [] => Some [t]
          | TWord w :: more =>
              if w =? "and" then option_map (cons t) (parse more) else None
          | _ => None
          end
      end
  | _ => None
  end.

Definition parseQuery (q : string) : option (list Term) :=
  match lex Idle q with
  | Some ts => parse ts
  | None => None
  end.

Definition satisfies (f : DriveFile) (t : Term) : bool :=
  match t with
  | NameIs s => name f =? s
  | MimeTypeIs s => mimeType f =? s
  | InParents p => existsb (String.eqb p) (parents f)
  | TrashedIs b => Bool.eqb (trashed f) b
  end.

(** ** Operations of the destination store *)

Definition mint (n : nat) : string :=
  "id" ++ NilEmpty.string_of_uint (Nat.to_uint n).

(** Replaces the first element that satisfies [p]; [None] when there is
    none. *)
Fixpoint update_first {A : Type} (p : A -> bool) (f : A -> A) (l : list A)
    : option (list A) :=
  match l with
  | [] => None
  | x :: l' =>
      if p x then Some (f x :: l')
      else option_map (cons x) (update_first p f l')
  end.

Fixpoint all_present {A : Type} (l : list (option A)) : option (list A) :=
  match l with
  | [] => Some []
  | Some a :: l' => option_map (cons a) (all_present l')
  | None :: _ => None
  end.

(** [drive.files.list({q, fields: 'files(id, name)', spaces: 'drive'})]:
    the files the query selects, in the store's order. *)
Definition files_list (q : string) (d : Drive) : Outcome (list DriveFile) * Drive :=
  match parseQuery q with
  | None => (Throw "Invalid Value", d)
  | Some terms =>
      (Ok (filter (fun f => forallb (satisfies f) terms) (files d)), d)
  end.

(** [drive.files.create({resource: {name, mimeType, parents}, fields: 'id'})].
    The store does not accept a [null] parent. *)
Definition files_create (name mimeType : string) (parents : list JS.nullable)
    (d : Drive) : Outcome DriveFile * Drive :=
  match all_present parents with
  | None => (Throw "Invalid Value", d)
  | Some ps =>
      let file := {| id := mint (next_id d); name := name; mimeType := mimeType;
                     parents := ps; trashed := false |} in
      (Ok file, {| files := file :: files d; documents := documents d;
                   next_id := S (next_id d) |})
  end.

(** [drive.files.update({fileId, addParents, fields})]. *)
Definition files_update (fileId addParents : string) (d : Drive)
    : Outcome unit * Drive :=
  match update_first (fun f => id f =? fileId)
          (fun f => {| id := id f; name := name f; mimeType := mimeType f;
                       parents := (parents f ++ [addParents])%list;
                       trashed := trashed f |})
          (files d) with
  | None => (Throw ("File not found: " ++ fileId), d)
  | Some fs => (Ok tt, {| files := fs; documents := documents d;
                          next_id := next_id d |})
  end.

(** [sheets.spreadsheets.create]: a new document with the given tabs, all
    empty, owned by the service account (it has no parent folder yet). *)
Definition spreadsheets_create (title : string) (tabs : list (string * nat))
    (d : Drive) : Outcome Spreadsheet * Drive :=
  let sid := mint (next_id d) in
  let doc := {| spreadsheetId := sid; title := title;
                sheets := map (fun tab => {| sheet_title := fst tab;
                                             frozenRowCount := snd tab;
                                             values := [] |}) tabs;
                formatting := [] |} in
  let file := {| id := sid; name := title; mimeType := spreadsheetMime;
                 parents := []; trashed := false |} in
  (Ok doc, {| files := file :: files d; documents := doc :: documents d;
              next_id := S (next_id d) |}).

(** A [RAW] write with its top-left corner at A1: a [null] leaves the cell
    as it was. *)
Definition overlay_cell (new old : Cell) : Cell :=
  match new with
  | CNull => old
  | _ => new
  end.

Fixpoint overlay_row (new old : list Cell) : list Cell :=
  match new, old with
  | [], _ => old
  | c :: new', [] => c :: overlay_row new' []
  | c :: new', o :: old' => overlay_cell c o :: overlay_row new' old'
  end.

Fixpoint overlay (new old : list (list Cell)) : list (list Cell) :=
  match new, old with
  | [], _ => old
  | r :: new', [] => overlay_row r [] :: overlay new' []
  | r :: new', o :: old' => overlay_row r o :: overlay new' old'
  end.

Definition write_sheet (vals : list (list Cell)) (s : Sheet) : Sheet :=
  {| sheet_title := sheet_title s; frozenRowCount := frozenRowCount s;
     values := overlay vals (values s) |}.

Definition set_sheets (ss : list Sheet) (doc : Spreadsheet) : Spreadsheet :=
  {| spreadsheetId := spreadsheetId doc; title := title doc; sheets := ss;
     formatting := formatting doc |}.

Definition set_documents (docs : list Spreadsheet) (d : Drive) : Drive :=
  {| files := files d; documents := docs; next_id := next_id d |}.

Definition find_document (sid : string) (d : Drive) : option Spreadsheet :=
  find (fun doc => spreadsheetId doc =? sid) (documents d).

(** [sheets.spreadsheets.values.update({spreadsheetId, range,
    valueInputOption: 'RAW', resource: {values}})]; the tab is the part of
    [range] before the exclamation mark. *)
Definition values_update (sid range : string) (vals : list (list Cell))
    (d : Drive) : Outcome unit * Drive :=
  match find_document sid d with
  | None => (Throw "Requested entity was not found.", d)
  | Some doc =>
      let tab := JS.split_head "!" range in
      match update_first (fun s => sheet_title s =? tab) (write_sheet vals)
              (sheets doc) with
      | None => (Throw ("Unable to parse range: " ++ range), d)
      | Some ss =>
          match update_first (fun doc' => spreadsheetId doc' =? sid)
                  (set_sheets ss) (documents d) with
          | None => (Throw "Requested entity was not found.", d)
          | Some docs => (Ok tt, set_documents docs d)
          end
      end
  end.

Definition request_sheet (r : FormatRequest) : nat :=
  match r with
  | RepeatCell s _ _ _ _ _ => s
  | AutoResizeDimensions s _ _ => s
  end.

(** [sheets.spreadsheets.batchUpdate({spreadsheetId, resource: {requests}})];
    a tab's [sheetId] is its position in the document. *)
Definition batchUpdate (sid : string) (requests : list FormatRequest)
    (d : Drive) : Outcome unit * Drive :=
  match find_document sid d with
  | None => (Throw "Requested entity was not found.", d)
  | Some doc =>
      if forallb (fun r => Nat.ltb (request_sheet r) (List.length (sheets doc))) requests then
        match update_first (fun doc' => spreadsheetId doc' =? sid)
                (fun doc' => {| spreadsheetId := spreadsheetId doc';
                                title := title doc'; sheets := sheets doc';
                                formatting := (formatting doc' ++ requests)%list |})
                (documents d) with
        | None => (Throw "Requested entity was not found.", d)
        | Some docs => (Ok tt, set_documents docs d)
        end
      else (Throw "Invalid requests: no such sheet", d)
  end.

(** ** Destination-store client (lines 153-308) *)

Definition folderQuery (folderName : string) (parentFolderId : JS.nullable)
    : string :=
  "name='" ++ folderName ++ "' and '" ++ JS.interp parentFolderId
  ++ "' in parents and mimeType='application/vnd.google-apps.folder' and trashed=false".

Definition findOrCreateFolder (folderName : string) (parentFolderId : JS.nullable)
    : M string :=
  let query := folderQuery folderName parentFolderId in
  searchResponse <- drive_call (files_list query);;
  match searchResponse with
  | first :: _ => ret (id first)
  | [] =>
      folder <- drive_call (files_create folderName folderMime [parentFolderId]);;
      ret (id folder)
  end.

Definition formatRequests : list FormatRequest :=
  [ RepeatCell 0 0 1 (20, 60, 86) (100, 100, 100) true;
    AutoResizeDimensions 0 0 10 ].

Definition createTasksSpreadsheet (fileName folderId : string)
    (project : Project.t) (tasks : list Task.t) : M string :=
  spreadsheet <- drive_call
    (spreadsheets_create fileName [("Tasks", 1); ("Project Info", 0)]);;
  let spreadsheetId := spreadsheetId spreadsheet in
  drive_call (files_update spreadsheetId folderId);;;
  drive_call (values_update spreadsheetId "Tasks!A1" (tasksValues tasks));;;
  backupDate <- new_Date_toISOString;;
  drive_call (values_update spreadsheetId "Project Info!A1"
                (projectInfo project tasks backupDate));;;
  drive_call (batchUpdate spreadsheetId formatRequests);;;
  ret spreadsheetId.

(** ** Backup of one project (lines 125-151) *)

Definition createProjectBackup (project : Project.t) (tasks : list Task.t)
    : M BackupResult.t :=
  try_catch
    (let folderName := JS.interp (Project.name project) ++ " - Asana Backup" in
     root <- getEnv GOOGLE_DRIVE_FOLDER_ID;;
     folderId <- findOrCreateFolder folderName root;;
     now <- new_Date_toISOString;;
     let timestamp := JS.split_head "T" now in
     let fileName := "Backup_" ++ timestamp in
     spreadsheetId <- createTasksSpreadsheet fileName folderId project tasks;;
     ret {| BackupResult.project := Project.name project;
            BackupResult.status := "success";
            BackupResult.tasksCount := Some (List.length tasks);
            BackupResult.folderId := Some folderId;
            BackupResult.spreadsheetId := Some spreadsheetId;
            BackupResult.timestamp := Some timestamp;
            BackupResult.error := None |})
    (fun message =>
       throw ("Failed to backup " ++ JS.interp (Project.name project) ++ ": "
              ++ message)).

(** ** HTTP entry point (lines 28-78 and 310-326) *)

Module Configured.
Record t : Type := mk {
  asana : bool;
  workspace : bool;
  drive : bool;
  serviceAccount : bool
}.
End Configured.

Inductive ResponseBody : Type :=
| BackupCompleted (success : bool) (message : string) (summary : Summary.t)
| BackupFailed (success : bool) (error : string)
| Healthy (status : string) (timestamp : string)
| Running (message : string) (configured : Configured.t).

Record Response : Type := {
  statusCode : nat;
  json : ResponseBody
}.

(** The body of the [try] inside the [for ... of] loop. *)
Definition backupAttempt (fuel : nat) (project : Project.t) : M BackupResult.t :=
  tasks <- fetchProjectTasks fuel (Project.gid project);;
  backupResult <- createProjectBackup project tasks;;
  ret backupResult.

(** The object pushed by the [catch] inside the loop. *)
Definition failedResult (project : Project.t) (message : string) : BackupResult.t :=
  {| BackupResult.project := Project.name project;
     BackupResult.status := "failed";
     BackupResult.tasksCount := None;
     BackupResult.folderId := None;
     BackupResult.spreadsheetId := None;
     BackupResult.timestamp := None;
     BackupResult.error := Some message |}.

(** [for (const project of projects) { try { ... } catch (error) { ... } }],
    with [backupResults] the array it pushes on. *)
Fixpoint backupLoop (fuel : nat) (projects : list Project.t)
    (backupResults : list BackupResult.t) : M (list BackupResult.t) :=
  match projects with
  | [] => ret backupResults
  | project :: rest =>
      r <- try_catch (backupAttempt fuel project)
             (fun message => ret (failedResult project message));;
      backupLoop fuel rest (backupResults ++ [r])%list
  end.

Definition hasStatus (s : string) (r : BackupResult.t) : bool :=
  BackupResult.status r =? s.

Definition summarize (timestamp : string) (projects : list Project.t)
    (backupResults : list BackupResult.t) : Summary.t :=
  {| Summary.timestamp := timestamp;
     Summary.totalProjects := List.length projects;
     Summary.successful := List.length (filter (hasStatus "success") backupResults);
     Summary.failed := List.length (filter (hasStatus "failed") backupResults);
     Summary.results := backupResults |}.

(** [app.post('/backup-asana', ...)]. *)
Definition backupAsana (fuel : nat) : M Response :=
  try_catch
    (projects <- fetchAsanaProjects;;
     backupResults <- backupLoop fuel projects [];;
     timestamp <- new_Date_toISOString;;
     let summary := summarize timestamp projects backupResults in
     ret {| statusCode := 200;
            json := BackupCompleted true "Backup completed" summary |})
    (fun message =>
       ret {| statusCode := 500; json := BackupFailed false message |}).

(** [app.get('/health', ...)]. *)
Definition health : M Response :=
  timestamp <- new_Date_toISOString;;
  ret {| statusCode := 200; json := Healthy "healthy" timestamp |}.

(** [app.get('/test', ...)], on a process that has started. *)
Definition test : M Response :=
  e <- getEnv (fun e => e);;
  ret {| statusCode := 200;
         json := Running "Agent is running"
                   {| Configured.asana := JS.bangbang (ASANA_ACCESS_TOKEN e);
                      Configured.workspace := JS.bangbang (ASANA_WORKSPACE_ID e);
                      Configured.drive := JS.bangbang (GOOGLE_DRIVE_FOLDER_ID e);
                      Configured.serviceAccount :=
                        JS.bangbang (GOOGLE_SERVICE_ACCOUNT_KEY e) |} |}.

(** ** Vocabulary of the properties *)

(** A field is populated when it holds a non-empty string. *)
Definition populated (v : JS.nullable) : option string :=
  match v with
  | Some s => if s =? "" then None else Some s
  | None => None
  end.

Definition orElse (v : option string) (default : string) : string :=
  match v with
  | Some s => s
  | None => default
  end.

(** The names of a task's tags, in order. *)
Definition tagNames (task : Task.t) : list string :=
  match Task.tags task with
  | Some ts => map (fun t => JS.elem (Tag.name t)) ts
  | None => []
  end.

(** The populated due value: the date-only field first. *)
Definition dueValue (task : Task.t) : string :=
  orElse (populated (Task.due_on task)) (orElse (populated (Task.due_at task)) "").

(** An environment variable is set when it has a value, empty or not. *)
Definition isSet (v : JS.nullable) : bool :=
  match v with
  | Some _ => true
  | None => false
  end.

(** Two configurations agree on [p] for each of the four required values. *)
Definition agreeOn (p : JS.nullable -> bool) (a b : Env) : Prop :=
  p (ASANA_ACCESS_TOKEN a) = p (ASANA_ACCESS_TOKEN b)
  /\ p (ASANA_WORKSPACE_ID a) = p (ASANA_WORKSPACE_ID b)
  /\ p (GOOGLE_DRIVE_FOLDER_ID a) = p (GOOGLE_DRIVE_FOLDER_ID b)
  /\ p (GOOGLE_SERVICE_ACCOUNT_KEY a) = p (GOOGLE_SERVICE_ACCOUNT_KEY b).

(** ** Example data, used to run the model *)

Definition emptyDrive : Drive := {| files := []; documents := []; next_id := 0 |}.

Definition isoClock (n : nat) : string :=
  "2024-05-01T10:00:0" ++ NilEmpty.string_of_uint (Nat.to_uint n) ++ ".000Z".

(** A world with the given configuration, source service and store, in
    which no call to the store fails. *)
Definition worldOf (e : Env) (a : Asana) (d : Drive) : World :=
  {| env := e; asana := a; asana_log := []; drive := d;
     drive_faults := fun _ => None; drive_calls := 0;
     clock := isoClock; ticks := 0 |}.

Definition silentAsana : Asana :=
  {| projects_api := fun _ _ => Body [];
     tasks_api := fun _ _ => Body {| data := []; next_page := None |} |}.

Definition envConfigured : Env :=
  {| ASANA_ACCESS_TOKEN := Some "0/1f2e3d";
     ASANA_WORKSPACE_ID := Some "1200";
     GOOGLE_DRIVE_FOLDER_ID := Some "root";
     GOOGLE_SERVICE_ACCOUNT_KEY := Some "{}" |}.

(** The same configuration with the access token set to the empty string. *)
Definition envEmptyToken : Env :=
  {| ASANA_ACCESS_TOKEN := Some "";
     ASANA_WORKSPACE_ID := Some "1200";
     GOOGLE_DRIVE_FOLDER_ID := Some "root";
     GOOGLE_SERVICE_ACCOUNT_KEY := Some "{}" |}.

(** ** Reading a task row back

    The source has no inverse of the row projection; this one serves to
    state what a row keeps of its task. *)

(** Whether a comma followed by a space occurs in [s]. *)
Fixpoint hasSeparator (s : string) : bool :=
  match s with
  | EmptyString => false
  | String c s' =>
      match s' with
      | EmptyString => false
      | String c2 _ => (Ascii.eqb c "," && Ascii.eqb c2 " ") || hasSeparator s'
      end
  end.

(** Cuts [s] at every comma followed by a space, from the left; [acc] is
    the piece being read. *)
Fixpoint unjoin (acc : string) (s : string) : list string :=
  match s with
  | EmptyString => [acc]
  | String c s' =>
      match s' with
      | EmptyString => [snoc acc c]
      | String c2 s'' =>
          if Ascii.eqb c "," && Ascii.eqb c2 " " then acc :: unjoin EmptyString s''
          else unjoin (snoc acc c) s'
      end
  end.

Definition splitTags (tagsCell : string) : list string :=
  if tagsCell =? "" then [] else unjoin EmptyString tagsCell.

Module Recovered.
Record t : Type := mk {
  name : string;
  completed : bool;
  due : string;
  tagNames : list string
}.
End Recovered.

Definition unproject (row : list Cell) : option Recovered.t :=
  match row with
  | [CStr name; CStr status; _; CStr due; _; CStr tags; _; _; _; _] =>
      Some {| Recovered.name := name;
              Recovered.completed := status =? "Completed";
              Recovered.due := due;
              Recovered.tagNames := splitTags tags |}
  | _ => None
  end.

(** A task that has the given tag names and nothing else of interest. *)
Definition taskTagged (names : list string) : Task.t :=
  {| Task.gid := "1001"; Task.name := Some "Plan the release";
     Task.completed := Some false; Task.completed_at := None;
     Task.due_on := Some "2024-06-30"; Task.due_at := None;
     Task.assignee := None; Task.notes := Some "";
     Task.tags := Some (map (fun n => Tag.mk "77" (Some n)) names);
     Task.created_at := Some "2024-04-02T08:00:00.000Z";
     Task.modified_at := Some "2024-04-03T08:00:00.000Z";
     Task.permalink_url := Some "https://app.asana.com/0/1/1001" |}.

(** ** Observing the store *)

(** The values of tab [tab] of document [sid]. *)
Definition tabValues (sid tab : string) (d : Drive) : option (list (list Cell)) :=
  match find_document sid d with
  | Some doc =>
      option_map values (find (fun s => sheet_title s =? tab) (sheets doc))
  | None => None
  end.

(** The document [createTasksSpreadsheet] leaves in the store. *)
Definition backupDocument (sid fileName : string) (project : Project.t)
    (tasks : list Task.t) (backupDate : string) : Spreadsheet :=
  {| spreadsheetId := sid; title := fileName;
     sheets := [ {| sheet_title := "Tasks"; frozenRowCount := 1;
                    values := tasksValues tasks |};
                 {| sheet_title := "Project Info"; frozenRowCount := 0;
                    values := projectInfo project tasks backupDate |} ];
     formatting := formatRequests |}.

(** The two projects of the end-to-end example: Alpha has one completed
    task, Beta has none. *)
Definition projectAlpha : Project.t :=
  {| Project.gid := "501"; Project.name := Some "Alpha";
     Project.created_at := Some "2024-01-10T09:00:00.000Z";
     Project.modified_at := Some "2024-04-28T16:30:00.000Z";
     Project.archived := Some false; Project.notes := Some "Quarterly goals";
     Project.owner := Some (Owner.mk "9" (Some "Olga")) |}.

Definition projectBeta : Project.t :=
  {| Project.gid := "502"; Project.name := Some "Beta";
     Project.created_at := Some "2024-02-01T09:00:00.000Z";
     Project.modified_at := Some "2024-02-01T09:00:00.000Z";
     Project.archived := None; Project.notes := None; Project.owner := None |}.

Definition taskDone : Task.t :=
  {| Task.gid := "1002"; Task.name := Some "Write the report";
     Task.completed := Some true;
     Task.completed_at := Some "2024-04-30T09:00:00.000Z";
     Task.due_on := None; Task.due_at := Some "2024-05-01T12:00:00.000Z";
     Task.assignee := Some (Assignee.mk "9" (Some "Olga"));
     Task.notes := Some "First draft";
     Task.tags := Some [Tag.mk "77" (Some "report"); Tag.mk "78" (Some "q2")];
     Task.created_at := Some "2024-04-02T08:00:00.000Z";
     Task.modified_at := Some "2024-04-30T09:00:00.000Z";
     Task.permalink_url := Some "https://app.asana.com/0/501/1002" |}.

(** ** Paginated sources *)

(** The continuation token of a response: [response.data.next_page?.offset]. *)
Definition continuationToken (body : TasksBody) : JS.nullable :=
  next_page body ?. NextPage.offset.

(** [Pages a e gid log offset pages]: asked for the tasks of [gid] from
    [offset] on, after the requests [log], the source [a] answers with the
    finite sequence [pages]; every page but the last carries a continuation
    token (a non-empty string), which is the offset that yields the next
    page, and the last page carries none. *)
Inductive Pages (a : Asana) (e : Env) (gid : string)
    : list AsanaRequest -> JS.nullable -> list TasksBody -> Prop :=
| Pages_last (log : list AsanaRequest) (offset : JS.nullable) (body : TasksBody) :
    tasks_api a log (tasksRequest e gid offset) = Body body ->
    JS.truthy (continuationToken body) = false ->
    Pages a e gid log offset [body]
| Pages_more (log : list AsanaRequest) (offset : JS.nullable) (body : TasksBody)
    (rest : list TasksBody) :
    tasks_api a log (tasksRequest e gid offset) = Body body ->
    JS.truthy (continuationToken body) = true ->
    Pages a e gid (log ++ [tasksRequest e gid offset])%list
      (continuationToken body) rest ->
    Pages a e gid log offset (body :: rest).

(** The offsets asked for while reading [pages], the first page with
    [offset]. *)
Fixpoint requestedOffsets (offset : JS.nullable) (pages : list TasksBody)
    : list JS.nullable :=
  match pages with
  | [] => []
  | body :: rest => offset :: requestedOffsets (continuationToken body) rest
  end.

(** A source with three pages of tasks for every project. *)
Definition pageOf (tasks : list Task.t) (token : JS.nullable) : TasksBody :=
  {| data := tasks;
     next_page := match token with
                  | Some t => Some (NextPage.mk (Some t) "/tasks" "https://app.asana.com/api/1.0/tasks")
                  | None => None
                  end |}.

Definition threePages : Asana :=
  {| projects_api := fun _ _ => Body [projectAlpha];
     tasks_api := fun _ r =>
       match offset r with
       | None => Body (pageOf [taskDone; taskTagged ["a"]] (Some "eyJ0eXAiOiJKV1Qi.2"))
       | Some o =>
           if o =? "eyJ0eXAiOiJKV1Qi.2" then
             Body (pageOf [taskTagged ["b"]] (Some "eyJ0eXAiOiJKV1Qi.3"))
           else if o =? "eyJ0eXAiOiJKV1Qi.3" then
             Body (pageOf [taskTagged ["c"]; taskTagged ["d"]] None)
           else HttpError "Request failed with status code 400"
       end |}.

(** ** Observing a run *)

Definition succeeded (r : BackupResult.t) : Prop :=
  BackupResult.status r = "success".

Definition settled (r : BackupResult.t) : Prop :=
  BackupResult.status r = "success" \/ BackupResult.status r = "failed".

(** How the body of the loop's [try] ends for each project in turn, in the
    world the projects before it have left; nothing follows an attempt that
    does not end. *)
Fixpoint attempts (fuel : nat) (projects : list Project.t) (w : World)
    : list (Outcome BackupResult.t) :=
  match projects with
  | [] => []
  | project :: rest =>
      let (o, w') := backupAttempt fuel project w in
      o :: match o with
           | Diverge => []
           | _ => attempts fuel rest w'
           end
  end.

Definition projectGamma : Project.t :=
  {| Project.gid := "503"; Project.name := Some "Gamma";
     Project.created_at := Some "2024-03-01T09:00:00.000Z";
     Project.modified_at := Some "2024-03-05T09:00:00.000Z";
     Project.archived := Some true; Project.notes := Some "";
     Project.owner := Some (Owner.mk "10" None) |}.

(** A workspace of three projects in which the task endpoint fails for
    Beta. *)
Definition betaUnavailable : Asana :=
  {| projects_api := fun _ _ => Body [projectAlpha; projectBeta; projectGamma];
     tasks_api := fun _ r =>
       if url r =? "https://app.asana.com/api/1.0/projects/502/tasks" then
         HttpError "Request failed with status code 500"
       else if url r =? "https://app.asana.com/api/1.0/projects/501/tasks" then
         Body (pageOf [taskDone] None)
       else Body (pageOf [] None) |}.

(** The workspace of the end-to-end example. *)
Definition alphaBeta : Asana :=
  {| projects_api := fun _ _ => Body [projectAlpha; projectBeta];
     tasks_api := fun _ r =>
       if url r =? "https://app.asana.com/api/1.0/projects/501/tasks" then
         Body (pageOf [taskDone] None)
       else Body (pageOf [] None) |}.

(** The same world, in which the [n]-th call to the store fails. *)
Definition withFault (n : nat) (message : string) (w : World) : World :=
  {| env := env w; asana := asana w; asana_log := asana_log w; drive := drive w;
     drive_faults := fun i => if Nat.eqb i n then Some message else drive_faults w i;
     drive_calls := drive_calls w; clock := clock w; ticks := ticks w |}.

(** What a successful backup reports. *)
Definition successResult (project : Project.t) (tasksCount : nat)
    (folderId spreadsheetId timestamp : string) : BackupResult.t :=
  {| BackupResult.project := Project.name project;
     BackupResult.status := "success";
     BackupResult.tasksCount := Some tasksCount;
     BackupResult.folderId := Some folderId;
     BackupResult.spreadsheetId := Some spreadsheetId;
     BackupResult.timestamp := Some timestamp;
     BackupResult.error := None |}.

(** The Summary of the end-to-end example. *)
Definition summaryAlphaBeta : Summary.t :=
  {| Summary.timestamp := "2024-05-01T10:00:04.000Z";
     Summary.totalProjects := 2;
     Summary.successful := 2;
     Summary.failed := 0;
     Summary.results :=
       [ successResult projectAlpha 1 "id0" "id1" "2024-05-01";
         successResult projectBeta 0 "id2" "id3" "2024-05-01" ] |}.

(** ** Folder searches *)

(** A text that stands between single quotes as it is: it holds no single
    quote and no backslash. *)
Fixpoint plain (s : string) : bool :=
  match s with
  | EmptyString => true
  | String c s' => negb (Ascii.eqb c "'") && negb (Ascii.eqb c "\") && plain s'
  end.

(** The folders a search for [folderName] under [parent] is meant to
    select: not trashed, of that exact name, under that parent. *)
Definition isFolderNamed (folderName parent : string) (f : DriveFile) : bool :=
  (name f =? folderName)
  && existsb (String.eqb parent) (parents f)
  && (mimeType f =? folderMime)
  && negb (trashed f).

Definition folder (fileId folderName parent : string) : DriveFile :=
  {| id := fileId; name := folderName; mimeType := folderMime;
     parents := [parent]; trashed := false |}.

(** A store that already holds the backup folders of two projects, one of
    them with an apostrophe in its name. *)
Definition driveWithFolders : Drive :=
  {| files := [ folder "f2" "Bob's Plan - Asana Backup" "root";
                folder "f1" "Alpha - Asana Backup" "root" ];
     documents := [];
     next_id := 0 |}.

(** A source whose project listing fails. *)
Definition asanaDown : Asana :=
  {| projects_api := fun _ _ => HttpError "Request failed with status code 401";
     tasks_api := fun _ _ => HttpError "Request failed with status code 401" |}.

(** A source that hands out a continuation token with every page. *)
Definition endless : Asana :=
  {| projects_api := fun _ _ => Body [projectAlpha];
     tasks_api := fun _ _ => Body (pageOf [taskDone] (Some "eyJ0eXAiOiJKV1Qi.2")) |}.

(** A source that fails on the third page of tasks. *)
Definition thirdPageDown : Asana :=
  {| projects_api := fun _ _ => Body [projectAlpha];
     tasks_api := fun _ r =>
       match offset r with
       | None => Body (pageOf [taskDone; taskTagged ["a"]] (Some "eyJ0eXAiOiJKV1Qi.2"))
       | Some o =>
           if o =? "eyJ0eXAiOiJKV1Qi.2" then
             Body (pageOf [taskTagged ["b"]] (Some "eyJ0eXAiOiJKV1Qi.3"))
           else HttpError "Request failed with status code 429"
       end |}.

(** [FailsAfter a e gid log offset n message]: asked for the tasks of [gid]
    from [offset] on, after the requests [log], the source [a] fails with
    [message] on its [n]-th answer, every page before it carrying a
    continuation token. *)
Inductive FailsAfter (a : Asana) (e : Env) (gid : string)
    : list AsanaRequest -> JS.nullable -> nat -> string -> Prop :=
| Fails_now (log : list AsanaRequest) (offset : JS.nullable) (message : string) :
    tasks_api a log (tasksRequest e gid offset) = HttpError message ->
    FailsAfter a e gid log offset 1 message
| Fails_later (log : list AsanaRequest) (offset : JS.nullable) (body : TasksBody)
    (n : nat) (message : string) :
    tasks_api a log (tasksRequest e gid offset) = Body body ->
    JS.truthy (continuationToken body) = true ->
    FailsAfter a e gid (log ++ [tasksRequest e gid offset])%list
      (continuationToken body) n message ->
    FailsAfter a e gid log offset (S n) message.

(** ** What a call may change *)

(** [grows d d']: the store [d'] holds every file and every document of
    [d], unchanged and in the same order, behind those added since. *)
Definition grows (d d' : Drive) : Prop :=
  exists fs docs,
    files d' = (fs ++ files d)%list /\ documents d' = (docs ++ documents d)%list.

(** A request for one page of the tasks of some project. *)
Definition pageRequest (e : Env) (r : AsanaRequest) : Prop :=
  exists gid offset, r = tasksRequest e gid offset.

(** What stays the same whatever the agent does: the configuration and
    the behaviour of the three outside parties. *)
Definition sameSetting (w w' : World) : Prop :=
  env w' = env w /\ asana w' = asana w /\ drive_faults w' = drive_faults w
  /\ clock w' = clock w.

(** A step that talks to the destination store and reads the clock only. *)
Definition storeSide (w w' : World) : Prop :=
  sameSetting w w' /\ asana_log w' = asana_log w /\ grows (drive w) (drive w').

(** A step that asks the source for pages of tasks and does nothing else. *)
Definition sourceSide (w w' : World) : Prop :=
  sameSetting w w' /\ drive w' = drive w /\ drive_calls w' = drive_calls w
  /\ ticks w' = ticks w
  /\ exists requests,
       asana_log w' = (asana_log w ++ requests)%list
       /\ Forall (pageRequest (env w)) requests.

(** Any stretch of a run. *)
Definition runStep (w w' : World) : Prop :=
  sameSetting w w' /\ grows (drive w) (drive w')
  /\ exists requests,
       asana_log w' = (asana_log w ++ requests)%list
       /\ Forall (pageRequest (env w)) requests.

(** [after m R]: however [m] ends, the world it leaves is related by [R] to
    the world it started in. *)
Definition after {A : Type} (m : M A) (R : World -> World -> Prop) : Prop :=
  forall w, R w (snd (m w)).

(** The file of a document that [createTasksSpreadsheet] has moved into its
    folder. *)
Definition spreadsheetFile (sid fileName folderId : string) : DriveFile :=
  {| id := sid; name := fileName; mimeType := spreadsheetMime;
     parents := [folderId]; trashed := false |}.

(** What the loop pushes for each project, given how its attempt ended. *)
Fixpoint settleAll (projects : list Project.t)
    (outcomes : list (Outcome BackupResult.t)) : list BackupResult.t :=
  match projects, outcomes with
  | _ :: ps, Ok r :: os => r :: settleAll ps os
  | p :: ps, Throw message :: os => failedResult p message :: settleAll ps os
  | _, _ => []
  end.

Definition returned {A : Type} (o : Outcome A) : bool :=
  match o with
  | Ok _ => true
  | _ => false
  end.

Definition threw {A : Type} (o : Outcome A) : bool :=
  match o with
  | Throw _ => true
  | _ => false
  end.

Definition ended {A : Type} (o : Outcome A) : Prop := o <> Diverge.

(** A workspace of three projects whose task endpoint is down. *)
Definition tasksDown : Asana :=
  {| projects_api := fun _ _ => Body [projectAlpha; projectBeta; projectGamma];
     tasks_api := fun _ _ => HttpError "Request failed with status code 503" |}.

(** ** Names and dates *)

(** The name of the folder that holds a project's backups. *)
Definition backupFolderName (project : Project.t) : string :=
  JS.interp (Project.name project) ++ " - Asana Backup".

(** Whether the character [c] is nowhere in [s]. *)
Fixpoint lacks (c : ascii) (s : string) : bool :=
  match s with
  | EmptyString => true
  | String a s' => negb (Ascii.eqb a c) && lacks c s'
  end.

(** * Properties *)

(** ** Strings *)

Lemma append_assoc (a b c : string) : (a ++ b) ++ c = a ++ (b ++ c).
Proof.
  induction a as [|x a IH]; simpl; [reflexivity | now rewrite IH].
Qed.

Lemma append_empty_r (a : string) : a ++ "" = a.
Proof.
  induction a as [|x a IH]; simpl; [reflexivity | now rewrite IH].
Qed.

Lemma join_concat (sep : string) (l : list JS.nullable) :
  JS.join sep l = String.concat sep (map JS.elem l).
Proof.
  induction l as [|x l IH]; [reflexivity|].
  destruct l as [|y l]; [reflexivity|].
  change (JS.join sep (x :: y :: l)) with (JS.elem x ++ sep ++ JS.join sep (y :: l)).
  now rewrite IH.
Qed.

(** ** JavaScript's [||] against the vocabulary of the properties *)

Lemma or_default_empty (v : JS.nullable) :
  v ||| Some "" = Some (orElse v "").
Proof.
  destruct v as [s|]; [|reflexivity].
  unfold JS.or; simpl. destruct (String.eqb_spec s ""); simpl; congruence.
Qed.

Lemma or_default_populated (v : JS.nullable) (d : string) :
  v ||| Some d = Some (orElse (populated v) d).
Proof.
  destruct v as [s|]; [|reflexivity].
  unfold JS.or; simpl. now destruct (s =? "").
Qed.

Lemma or_or_default (a b : JS.nullable) (d : string) :
  a ||| b ||| Some d = Some (orElse (populated a) (orElse (populated b) d)).
Proof.
  destruct a as [s|]; unfold JS.or at 2; simpl.
  - destruct (s =? "") eqn:E; simpl.
    + apply or_default_populated.
    + unfold JS.or; simpl. now rewrite E.
  - apply or_default_populated.
Qed.

(** ** Row projection *)

(** The tags cell: the names joined, the empty string without tags. *)
Lemma tagsJoined_concat (task : Task.t) :
  orElse (tagsJoined task) "" = String.concat ", " (tagNames task).
Proof.
  unfold tagsJoined, tagNames.
  destruct (Task.tags task) as [ts|]; simpl; [|reflexivity].
  now rewrite join_concat, map_map.
Qed.

(** C3. For every task, the row written to the Tasks tab is the list of
    ten text cells, in this order: the name (the empty string when there is
    none); "Completed" when the completion flag is set and "Incomplete"
    otherwise; the assignee's name, or "Unassigned" when there is no
    assignee or no name; the date-only due field when it is present, else
    the date-time due field when it is present, else the empty string; the
    completion timestamp or the empty string; the tag names joined by a
    comma and a space (the empty string without tags); the notes, the
    permanent URL, the creation timestamp and the modification timestamp,
    each replaced by the empty string when missing.  The source tests
    presence with JavaScript truthiness, so that a field is present when it
    holds a non-empty string ([populated]): an assignee name or a due field
    that is the empty string counts as missing. *)
Theorem taskRow_columns (task : Task.t) :
  taskRow task =
    [ CStr (orElse (Task.name task) "");
      CStr (if JS.flag (Task.completed task) then "Completed" else "Incomplete");
      CStr (match Task.assignee task with
            | Some a => orElse (populated (Assignee.name a)) "Unassigned"
            | None => "Unassigned"
            end);
      CStr (orElse (populated (Task.due_on task))
              (orElse (populated (Task.due_at task)) ""));
      CStr (orElse (Task.completed_at task) "");
      CStr (String.concat ", " (tagNames task));
      CStr (orElse (Task.notes task) "");
      CStr (orElse (Task.permalink_url task) "");
      CStr (orElse (Task.created_at task) "");
      CStr (orElse (Task.modified_at task) "") ].
Proof.
  unfold taskRow.
  rewrite or_or_default, !or_default_empty, tagsJoined_concat.
  repeat (f_equal; try reflexivity).
  - now destruct (JS.flag (Task.completed task)).
  - destruct (Task.assignee task) as [a|]; simpl; [|reflexivity].
    now rewrite or_default_populated.
Qed.

(** ** The configuration probe *)

(** The probe answers with four booleans, the truthiness of the four
    values, and changes nothing. *)
Lemma test_response (w : World) :
  test w =
    (Ok {| statusCode := 200;
           json := Running "Agent is running"
                     {| Configured.asana := JS.truthy (ASANA_ACCESS_TOKEN (env w));
                        Configured.workspace := JS.truthy (ASANA_WORKSPACE_ID (env w));
                        Configured.drive := JS.truthy (GOOGLE_DRIVE_FOLDER_ID (env w));
                        Configured.serviceAccount :=
                          JS.truthy (GOOGLE_SERVICE_ACCOUNT_KEY (env w)) |} |}, w).
Proof. reflexivity. Qed.

(** C9, as stated, fails: two configurations in which all four values are
    set, one of them with an empty access token, get different answers. *)
Lemma test_set_but_empty :
  agreeOn isSet envEmptyToken envConfigured
  /\ fst (test (worldOf envEmptyToken silentAsana emptyDrive))
     <> fst (test (worldOf envConfigured silentAsana emptyDrive)).
Proof.
  split.
  - repeat split.
  - vm_compute. discriminate.
Qed.

(** C9, amended. Two configurations that agree, value by value, on whether
    each of the four required values is set to a non-empty string get the
    same answer from the probe, whatever the values are. *)
Theorem test_noninterference (w1 w2 : World) :
  agreeOn JS.truthy (env w1) (env w2) ->
  fst (test w1) = fst (test w2).
Proof.
  intros (Ha & Hw & Hd & Hs).
  rewrite !test_response; simpl.
  now rewrite Ha, Hw, Hd, Hs.
Qed.

Lemma test_noninterference_witness :
  agreeOn JS.truthy
    (env (worldOf envConfigured silentAsana emptyDrive))
    (env (worldOf {| ASANA_ACCESS_TOKEN := Some "another token";
                     ASANA_WORKSPACE_ID := Some "77";
                     GOOGLE_DRIVE_FOLDER_ID := Some "elsewhere";
                     GOOGLE_SERVICE_ACCOUNT_KEY := Some "{ }" |}
                  silentAsana emptyDrive))
  /\ fst (test (worldOf envConfigured silentAsana emptyDrive))
     = fst (test (worldOf {| ASANA_ACCESS_TOKEN := Some "another token";
                             ASANA_WORKSPACE_ID := Some "77";
                             GOOGLE_DRIVE_FOLDER_ID := Some "elsewhere";
                             GOOGLE_SERVICE_ACCOUNT_KEY := Some "{ }" |}
                          silentAsana emptyDrive)).
Proof.
  split.
  - repeat split.
  - apply test_noninterference. repeat split.
Defined.

(** ** Reading a row back *)

Lemma append_not_empty (a b : string) (c : ascii) : a ++ String c b <> "".
Proof. destruct a; discriminate. Qed.

Lemma unjoin_piece (s acc rest : string) :
  hasSeparator s = false ->
  unjoin acc (s ++ ", " ++ rest) = (acc ++ s) :: unjoin "" rest.
Proof.
  revert acc. induction s as [|c s IH]; intros acc Hs.
  - simpl. now rewrite append_empty_r.
  - destruct s as [|c2 s2].
    + specialize (IH (snoc acc c) eq_refl).
      simpl in *. rewrite andb_false_r. rewrite IH.
      unfold snoc. now rewrite append_empty_r.
    + simpl in Hs. apply orb_false_elim in Hs as [Hc Hs].
      change (unjoin acc (String c (String c2 s2) ++ ", " ++ rest))
        with (if (Ascii.eqb c "," && Ascii.eqb c2 " ")%bool
              then acc :: unjoin "" (s2 ++ ", " ++ rest)
              else unjoin (snoc acc c) (String c2 s2 ++ ", " ++ rest)).
      rewrite Hc, IH by exact Hs.
      unfold snoc. now rewrite append_assoc.
Qed.

Lemma unjoin_last (s acc : string) :
  hasSeparator s = false -> unjoin acc s = [acc ++ s].
Proof.
  revert acc. induction s as [|c s IH]; intros acc Hs.
  - simpl. now rewrite append_empty_r.
  - destruct s as [|c2 s2]; [reflexivity|].
    simpl in Hs. apply orb_false_elim in Hs as [Hc Hs].
    change (unjoin acc (String c (String c2 s2)))
      with (if (Ascii.eqb c "," && Ascii.eqb c2 " ")%bool
            then acc :: unjoin "" s2
            else unjoin (snoc acc c) (String c2 s2)).
    rewrite Hc, IH by exact Hs.
    unfold snoc. now rewrite append_assoc.
Qed.

Lemma unjoin_concat (l : list string) :
  l <> [] ->
  Forall (fun n => hasSeparator n = false) l ->
  unjoin "" (String.concat ", " l) = l.
Proof.
  induction l as [|x l IH]; intros Hne Hall; [congruence|].
  inversion Hall as [|? ? Hx Hl]; subst.
  destruct l as [|y l].
  - simpl. now apply unjoin_last.
  - change (String.concat ", " (x :: y :: l))
      with (x ++ ", " ++ String.concat ", " (y :: l)).
    rewrite unjoin_piece by exact Hx.
    rewrite IH by (congruence || assumption). reflexivity.
Qed.

Lemma concat_empty (l : list string) :
  String.concat ", " l = "" -> l = [] \/ l = [""].
Proof.
  destruct l as [|x [|y l]]; simpl; intros H; auto.
  - right. now subst.
  - exfalso. exact (append_not_empty x _ _ H).
Qed.

Lemma splitTags_concat (l : list string) :
  l <> [""] ->
  Forall (fun n => hasSeparator n = false) l ->
  splitTags (String.concat ", " l) = l.
Proof.
  intros Hne Hall. unfold splitTags.
  destruct (String.eqb_spec (String.concat ", " l) "") as [E|E].
  - destruct (concat_empty l E); congruence.
  - apply unjoin_concat; [|exact Hall].
    intros ->. now apply E.
Qed.

(** C4, as stated, fails: one tag whose name holds a comma and a space
    gives the same row as two tags, so that no function of the row returns
    the tag list of every task. *)
Lemma row_projection_merges_tags :
  taskRow (taskTagged ["release, urgent"]) = taskRow (taskTagged ["release"; "urgent"])
  /\ tagNames (taskTagged ["release, urgent"]) <> tagNames (taskTagged ["release"; "urgent"])
  /\ ~ (exists recover : list Cell -> list string,
          forall task, recover (taskRow task) = tagNames task).
Proof.
  assert (Hrow : taskRow (taskTagged ["release, urgent"])
                 = taskRow (taskTagged ["release"; "urgent"])) by reflexivity.
  assert (Htags : tagNames (taskTagged ["release, urgent"])
                  <> tagNames (taskTagged ["release"; "urgent"])) by discriminate.
  split; [exact Hrow | split; [exact Htags |]].
  intros [recover Hrec]. apply Htags.
  now rewrite <- !Hrec, Hrow.
Qed.

(** C4, amended. For every task whose tag names hold no comma followed by
    a space, and whose tag list is not a single tag with an empty name,
    reading the row back returns the task's name (the empty string when
    there is none), its completion flag, its populated due value (that of
    the date-only field when it is populated, else that of the date-time
    field) and its tag names in order. *)
Theorem row_round_trip (task : Task.t) :
  tagNames task <> [""] ->
  Forall (fun n => hasSeparator n = false) (tagNames task) ->
  unproject (taskRow task) =
    Some {| Recovered.name := orElse (Task.name task) "";
            Recovered.completed := JS.flag (Task.completed task);
            Recovered.due := dueValue task;
            Recovered.tagNames := tagNames task |}.
Proof.
  intros Hne Hall. unfold taskRow, dueValue.
  rewrite or_or_default, !or_default_empty, tagsJoined_concat.
  destruct (JS.flag (Task.completed task)); simpl;
    now rewrite splitTags_concat by assumption.
Qed.

Lemma row_round_trip_witness :
  tagNames (taskTagged ["release"; "urgent,"; " or not"; ""]) <> [""]
  /\ Forall (fun n => hasSeparator n = false)
       (tagNames (taskTagged ["release"; "urgent,"; " or not"; ""]))
  /\ unproject (taskRow (taskTagged ["release"; "urgent,"; " or not"; ""])) =
       Some {| Recovered.name := "Plan the release";
               Recovered.completed := false;
               Recovered.due := "2024-06-30";
               Recovered.tagNames := ["release"; "urgent,"; " or not"; ""] |}.
Proof.
  assert (H1 : tagNames (taskTagged ["release"; "urgent,"; " or not"; ""]) <> [""])
    by discriminate.
  assert (H2 : Forall (fun n => hasSeparator n = false)
                 (tagNames (taskTagged ["release"; "urgent,"; " or not"; ""])))
    by (repeat constructor).
  split; [exact H1 | split; [exact H2 |]].
  exact (row_round_trip (taskTagged ["release"; "urgent,"; " or not"; ""]) H1 H2).
Defined.

(** ** The destination store *)

Lemma overlay_row_empty (r : list Cell) : overlay_row r [] = r.
Proof. induction r as [|c r IH]; simpl; [reflexivity | now rewrite IH]. Qed.

Lemma overlay_empty (vals : list (list Cell)) : overlay vals [] = vals.
Proof.
  induction vals as [|r vals IH]; simpl; [reflexivity|].
  now rewrite overlay_row_empty, IH.
Qed.

Ltac store_step :=
  match goal with
  | |- context [match drive_faults ?w ?n with _ => _ end] =>
      destruct (drive_faults w n); [simpl; discriminate|]
  end;
  simpl;
  unfold values_update, batchUpdate, files_update, find_document,
    set_documents, set_sheets;
  simpl; rewrite ?String.eqb_refl; simpl; rewrite ?String.eqb_refl; simpl.

(** Running [createTasksSpreadsheet]: the five calls to the store, none of
    which fails on a fresh document unless the store itself does. *)
Lemma createTasksSpreadsheet_Ok fileName folderId project tasks w sid w' :
  createTasksSpreadsheet fileName folderId project tasks w = (Ok sid, w') ->
  sid = mint (next_id (drive w))
  /\ documents (drive w')
     = backupDocument sid fileName project tasks (clock w (ticks w))
         :: documents (drive w)
  /\ ticks w' = S (ticks w)
  /\ clock w' = clock w
  /\ env w' = env w.
Proof.
  unfold createTasksSpreadsheet, bind, drive_call, new_Date_toISOString, ret.
  Opaque mint.
  simpl.
  repeat store_step.
  Transparent mint.
  intros H. injection H as <- <-.
  unfold backupDocument. simpl. unfold write_sheet. simpl.
  rewrite !overlay_empty.
  repeat split.
Qed.

Lemma tabValues_head (doc : Spreadsheet) (docs : list Spreadsheet) (tab : string)
    (d : Drive) :
  documents d = doc :: docs ->
  tabValues (spreadsheetId doc) tab d =
    option_map values (find (fun s => sheet_title s =? tab) (sheets doc)).
Proof.
  intros H. unfold tabValues, find_document. rewrite H; simpl.
  now rewrite String.eqb_refl.
Qed.

(** C7. For every project whose task list is empty, the Tasks tab of the
    document that [createTasksSpreadsheet] creates holds exactly one row,
    the header row of ten columns, and no task row. *)
Theorem empty_project_tasks_tab fileName folderId project w sid w' :
  createTasksSpreadsheet fileName folderId project [] w = (Ok sid, w') ->
  tabValues sid "Tasks" (drive w') =
    Some [ [ CStr "Task Name"; CStr "Status"; CStr "Assignee"; CStr "Due Date";
             CStr "Completed Date"; CStr "Tags"; CStr "Notes"; CStr "URL";
             CStr "Created At"; CStr "Modified At" ] ].
Proof.
  intros H. apply createTasksSpreadsheet_Ok in H as (_ & Hdocs & _).
  change sid with (spreadsheetId
    (backupDocument sid fileName project [] (clock w (ticks w)))) at 1.
  now rewrite (tabValues_head _ _ _ _ Hdocs).
Qed.

Lemma empty_project_tasks_tab_witness :
  tabValues "id0" "Tasks"
    (drive (snd (createTasksSpreadsheet "Backup_2024-05-01" "folder" projectBeta []
                   (worldOf envConfigured silentAsana emptyDrive)))) =
    Some [ [ CStr "Task Name"; CStr "Status"; CStr "Assignee"; CStr "Due Date";
             CStr "Completed Date"; CStr "Tags"; CStr "Notes"; CStr "URL";
             CStr "Created At"; CStr "Modified At" ] ].
Proof.
  apply (empty_project_tasks_tab "Backup_2024-05-01" "folder" projectBeta
           (worldOf envConfigured silentAsana emptyDrive)).
  vm_compute. reflexivity.
Defined.

Lemma count_flag (tasks : list Task.t) (b : bool) :
  List.length (filter (fun t => Bool.eqb (JS.flag (Task.completed t)) b) tasks)
  = count_occ Bool.bool_dec (map (fun t => JS.flag (Task.completed t)) tasks) b.
Proof.
  induction tasks as [|t tasks IH]; simpl; [reflexivity|].
  destruct (JS.flag (Task.completed t)), b; simpl; now rewrite IH.
Qed.

Lemma filter_flag_true (tasks : list Task.t) :
  filter (fun t => JS.flag (Task.completed t)) tasks
  = filter (fun t => Bool.eqb (JS.flag (Task.completed t)) true) tasks.
Proof.
  apply filter_ext. intros t. now destruct (JS.flag (Task.completed t)).
Qed.

Lemma filter_flag_false (tasks : list Task.t) :
  filter (fun t => negb (JS.flag (Task.completed t))) tasks
  = filter (fun t => Bool.eqb (JS.flag (Task.completed t)) false) tasks.
Proof.
  apply filter_ext. intros t. now destruct (JS.flag (Task.completed t)).
Qed.

(** C8. For every project and task list, the Project Info tab of the
    document that [createTasksSpreadsheet] creates holds exactly eleven
    key and value rows, in this order: the project's name, its id, its
    creation and modification timestamps, its owner's name or "N/A" when
    there is no owner or no name (an empty name counts as none), "Yes" or
    "No" from the archived flag, its notes or the empty string, the clock's
    reading taken during the call, the number of tasks, the number of tasks
    whose completion flag is set, and the number of tasks whose flag is
    not. *)
Theorem project_info_tab fileName folderId project tasks w sid w' :
  createTasksSpreadsheet fileName folderId project tasks w = (Ok sid, w') ->
  tabValues sid "Project Info" (drive w') =
    Some [ [CStr "Project Name"; cell (Project.name project)];
           [CStr "Project ID"; CStr (Project.gid project)];
           [CStr "Created At"; cell (Project.created_at project)];
           [CStr "Modified At"; cell (Project.modified_at project)];
           [CStr "Owner";
            CStr (match Project.owner project with
                  | Some o => orElse (populated (Owner.name o)) "N/A"
                  | None => "N/A"
                  end)];
           [CStr "Archived";
            CStr (if JS.flag (Project.archived project) then "Yes" else "No")];
           [CStr "Notes"; CStr (orElse (Project.notes project) "")];
           [CStr "Backup Date"; CStr (clock w (ticks w))];
           [CStr "Total Tasks"; CNum (List.length tasks)];
           [CStr "Completed Tasks";
            CNum (count_occ Bool.bool_dec
                    (map (fun t => JS.flag (Task.completed t)) tasks) true)];
           [CStr "Incomplete Tasks";
            CNum (count_occ Bool.bool_dec
                    (map (fun t => JS.flag (Task.completed t)) tasks) false)] ]
  /\ ticks w' = S (ticks w).
Proof.
  intros H. apply createTasksSpreadsheet_Ok in H as (_ & Hdocs & Hticks & _).
  split; [|exact Hticks].
  change sid with (spreadsheetId
    (backupDocument sid fileName project tasks (clock w (ticks w)))) at 1.
  rewrite (tabValues_head _ _ _ _ Hdocs). simpl. unfold projectInfo.
  rewrite filter_flag_true, filter_flag_false, !count_flag, or_default_empty.
  repeat (f_equal; try reflexivity).
  - destruct (Project.owner project) as [o|]; simpl; [|reflexivity].
    now rewrite or_default_populated.
  - now destruct (JS.flag (Project.archived project)).
Qed.

Lemma project_info_tab_witness :
  tabValues "id0" "Project Info"
    (drive (snd (createTasksSpreadsheet "Backup_2024-05-01" "folder" projectAlpha
                   [taskDone; taskTagged ["release"]]
                   (worldOf envConfigured silentAsana emptyDrive)))) =
    Some [ [CStr "Project Name"; CStr "Alpha"];
           [CStr "Project ID"; CStr "501"];
           [CStr "Created At"; CStr "2024-01-10T09:00:00.000Z"];
           [CStr "Modified At"; CStr "2024-04-28T16:30:00.000Z"];
           [CStr "Owner"; CStr "Olga"];
           [CStr "Archived"; CStr "No"];
           [CStr "Notes"; CStr "Quarterly goals"];
           [CStr "Backup Date"; CStr "2024-05-01T10:00:00.000Z"];
           [CStr "Total Tasks"; CNum 2];
           [CStr "Completed Tasks"; CNum 1];
           [CStr "Incomplete Tasks"; CNum 1] ]
  /\ ticks (snd (createTasksSpreadsheet "Backup_2024-05-01" "folder" projectAlpha
                   [taskDone; taskTagged ["release"]]
                   (worldOf envConfigured silentAsana emptyDrive))) = 1.
Proof.
  apply (project_info_tab "Backup_2024-05-01" "folder" projectAlpha
           [taskDone; taskTagged ["release"]]
           (worldOf envConfigured silentAsana emptyDrive)).
  vm_compute. reflexivity.
Defined.

(** ** Pagination *)

Lemma requestedOffsets_length (offset : JS.nullable) (pages : list TasksBody) :
  List.length (requestedOffsets offset pages) = List.length pages.
Proof.
  revert offset. induction pages as [|b pages IH]; intros offset; simpl;
    [reflexivity | now rewrite IH].
Qed.

Lemma set_asana_log_twice (l l' : list AsanaRequest) (w : World) :
  set_asana_log l (set_asana_log l' w) = set_asana_log l w.
Proof. reflexivity. Qed.

(** The loop, started anywhere in the sequence of pages. *)
Lemma fetchLoop_pages a e gid log offset pages :
  Pages a e gid log offset pages ->
  forall w tasks fuel,
    asana w = a -> env w = e -> asana_log w = log ->
    List.length pages <= fuel ->
    fetchLoop fuel gid tasks offset w
    = (Ok (tasks ++ concat (map data pages))%list,
       set_asana_log
         (log ++ map (tasksRequest e gid) (requestedOffsets offset pages))%list w).
Proof.
  induction 1 as [log offset body Hreply Hlast
                 |log offset body rest Hreply Hmore Hrest IH];
    intros w tasks fuel Ha He Hlog Hfuel.
  - destruct fuel as [|fuel]; [simpl in Hfuel; lia|].
    simpl. unfold bind, getEnv, axios_get.
    rewrite Ha, He, Hlog, Hreply.
    fold (continuationToken body). rewrite Hlast.
    unfold ret. now rewrite app_nil_r.
  - destruct fuel as [|fuel]; [simpl in Hfuel; lia|].
    simpl in Hfuel. simpl. unfold bind, getEnv, axios_get.
    rewrite Ha, He, Hlog, Hreply.
    fold (continuationToken body). rewrite Hmore.
    rewrite (IH _ _ fuel) by (try reflexivity; try assumption; lia).
    rewrite set_asana_log_twice, <- !app_assoc. reflexivity.
Qed.

(** C2. For every project and every source that answers with a finite
    sequence of pages, each carrying a continuation token except the last,
    [fetchProjectTasks] returns the concatenation of the pages' tasks in
    page order; it sends one request per page and none after the page
    without a token, each asking for at most 100 tasks, the first without
    an offset and each following one with the token of the page before. *)
Theorem fetchProjectTasks_pagination w projectGid pages fuel :
  Pages (asana w) (env w) projectGid (asana_log w) None pages ->
  List.length pages <= fuel ->
  let requests :=
    map (tasksRequest (env w) projectGid) (requestedOffsets None pages) in
  fetchProjectTasks fuel projectGid w
  = (Ok (concat (map data pages)),
     set_asana_log (asana_log w ++ requests)%list w)
  /\ List.length requests = List.length pages
  /\ Forall (fun r => limit r = Some 100) requests
  /\ map offset requests = requestedOffsets None pages.
Proof.
  intros Hpages Hfuel requests. repeat split.
  - unfold fetchProjectTasks.
    now rewrite (fetchLoop_pages _ _ _ _ _ _ Hpages w [] fuel).
  - unfold requests. now rewrite length_map, requestedOffsets_length.
  - unfold requests. apply Forall_map, Forall_forall. reflexivity.
  - unfold requests. rewrite map_map. simpl. apply map_id.
Qed.

Lemma threePages_pages :
  Pages threePages envConfigured "501" [] None
    [ pageOf [taskDone; taskTagged ["a"]] (Some "eyJ0eXAiOiJKV1Qi.2");
      pageOf [taskTagged ["b"]] (Some "eyJ0eXAiOiJKV1Qi.3");
      pageOf [taskTagged ["c"]; taskTagged ["d"]] None ].
Proof.
  apply Pages_more; [reflexivity | reflexivity |].
  apply Pages_more; [reflexivity | reflexivity |].
  apply Pages_last; reflexivity.
Defined.

Lemma fetchProjectTasks_pagination_witness :
  fst (fetchProjectTasks 3 "501" (worldOf envConfigured threePages emptyDrive))
  = Ok [taskDone; taskTagged ["a"]; taskTagged ["b"]; taskTagged ["c"];
        taskTagged ["d"]]
  /\ map offset
       (asana_log
          (snd (fetchProjectTasks 3 "501"
                  (worldOf envConfigured threePages emptyDrive))))
     = [None; Some "eyJ0eXAiOiJKV1Qi.2"; Some "eyJ0eXAiOiJKV1Qi.3"].
Proof.
  destruct (fetchProjectTasks_pagination
              (worldOf envConfigured threePages emptyDrive) "501" _ 3
              threePages_pages (le_n 3)) as (Hrun & _ & _ & _).
  rewrite Hrun. split; reflexivity.
Defined.

(** ** Inversion of the monad's operations *)

Lemma bind_Ok {A B : Type} (m : M A) (k : A -> M B) (w w' : World) (b : B) :
  bind m k w = (Ok b, w') ->
  exists a w1, m w = (Ok a, w1) /\ k a w1 = (Ok b, w').
Proof.
  unfold bind. destruct (m w) as [[a|e|] w1]; intros H; try discriminate.
  now exists a, w1.
Qed.

Lemma try_catch_Ok {A : Type} (body : M A) (handler : string -> M A)
    (w w' : World) (a : A) :
  try_catch body handler w = (Ok a, w') ->
  body w = (Ok a, w')
  \/ exists e w1, body w = (Throw e, w1) /\ handler e w1 = (Ok a, w').
Proof.
  unfold try_catch. destruct (body w) as [[a0|e|] w1]; intros H;
    try discriminate.
  - now left.
  - right. now exists e, w1.
Qed.

Ltac invert_bind H :=
  let a := fresh "a" in
  let w := fresh "w" in
  let H1 := fresh "Hstep" in
  apply bind_Ok in H as (a & w & H1 & H).

(** ** One project *)

Lemma createProjectBackup_Ok project tasks w r w' :
  createProjectBackup project tasks w = (Ok r, w') ->
  BackupResult.status r = "success"
  /\ BackupResult.project r = Project.name project
  /\ BackupResult.tasksCount r = Some (List.length tasks)
  /\ BackupResult.error r = None.
Proof.
  unfold createProjectBackup. intros H.
  apply try_catch_Ok in H as [H | (e & w1 & _ & H)]; [|discriminate].
  do 4 invert_bind H.
  unfold ret in H. injection H as <- _. now repeat split.
Qed.

Lemma backupAttempt_Ok fuel project w r w' :
  backupAttempt fuel project w = (Ok r, w') ->
  BackupResult.status r = "success"
  /\ BackupResult.project r = Project.name project.
Proof.
  unfold backupAttempt. intros H. do 2 invert_bind H.
  unfold ret in H. injection H as <- _.
  apply createProjectBackup_Ok in Hstep0 as (Hs & Hp & _). now split.
Qed.


(** A failed task fetch is what the attempt throws. *)
Lemma backupAttempt_fetch_throws fuel project w message w' :
  fetchProjectTasks fuel (Project.gid project) w = (Throw message, w') ->
  backupAttempt fuel project w = (Throw message, w').
Proof. intros H. unfold backupAttempt, bind. now rewrite H. Qed.

(** ** The loop over the projects *)

Lemma count_succeeded (l : list BackupResult.t) :
  Forall succeeded l ->
  filter (hasStatus "success") l = l /\ filter (hasStatus "failed") l = [].
Proof.
  induction 1 as [|r l Hr _ [IH1 IH2]]; [now split|].
  unfold succeeded in Hr.
  assert (Hs : hasStatus "success" r = true) by (unfold hasStatus; now rewrite Hr).
  assert (Hf : hasStatus "failed" r = false) by (unfold hasStatus; now rewrite Hr).
  simpl. now rewrite Hs, Hf, IH1, IH2.
Qed.

Lemma backupLoop_all_Ok fuel projects :
  forall w acc after,
    attempts fuel projects w = map Ok after ->
    exists w',
      backupLoop fuel projects acc w = (Ok (acc ++ after)%list, w')
      /\ Forall succeeded after
      /\ map BackupResult.project after = map Project.name projects.
Proof.
  induction projects as [|p projects IH]; intros w acc after H; simpl in H.
  - destruct after; [|discriminate]. exists w. simpl. rewrite app_nil_r.
    now repeat split.
  - destruct (backupAttempt fuel p w) as [o w1] eqn:E.
    destruct after as [|r after]; [discriminate|].
    simpl in H. injection H as -> Hrest.
    destruct (IH w1 (acc ++ [r])%list after Hrest) as (w' & Hrun & Hall & Hnames).
    exists w'. simpl. unfold bind, try_catch. rewrite E, Hrun, <- app_assoc.
    apply backupAttempt_Ok in E as [Hs Hp].
    repeat split; [now constructor | simpl; congruence].
Qed.

Lemma backupLoop_one_failure fuel projects :
  forall w acc before message after,
    attempts fuel projects w = (map Ok before ++ Throw message :: map Ok after)%list ->
    exists failedProject w',
      nth_error projects (List.length before) = Some failedProject
      /\ backupLoop fuel projects acc w
         = (Ok (acc ++ before ++ failedResult failedProject message :: after)%list, w')
      /\ Forall succeeded before
      /\ Forall succeeded after
      /\ map BackupResult.project
           (before ++ failedResult failedProject message :: after)
         = map Project.name projects.
Proof.
  induction projects as [|p projects IH]; intros w acc before message after H;
    simpl in H.
  - destruct before; discriminate.
  - destruct (backupAttempt fuel p w) as [o w1] eqn:E.
    destruct before as [|r before]; simpl in H; injection H as -> Hrest.
    + destruct (backupLoop_all_Ok fuel projects w1
                  (acc ++ [failedResult p message])%list after Hrest)
        as (w' & Hrun & Hall & Hnames).
      exists p, w'. simpl. unfold bind, try_catch. rewrite E. unfold ret.
      rewrite Hrun, <- app_assoc.
      repeat split; [constructor | assumption | simpl; congruence].
    + destruct (IH w1 (acc ++ [r])%list before message after Hrest)
        as (q & w' & Hnth & Hrun & Hb & Ha & Hnames).
      exists q, w'. simpl. unfold bind, try_catch. rewrite E, Hrun, <- app_assoc.
      apply backupAttempt_Ok in E as [Hs Hp].
      repeat split; [assumption | now constructor | assumption
                    | simpl; congruence].
Qed.

(** C1. For every list of N projects of which exactly one makes the body
    of the loop throw, its task fetch or its backup build, while the others
    succeed, the run goes through all the projects and answers with a
    Summary whose results hold one entry per project, in project order:
    N-1 entries with status "success" and, at the place of the project that
    threw, one entry with status "failed" that carries the message of the
    thrown error. *)
Theorem backup_isolates_failure fuel w0 projects w before message after :
  fetchAsanaProjects w0 = (Ok projects, w) ->
  attempts fuel projects w = (map Ok before ++ Throw message :: map Ok after)%list ->
  exists failedProject summary w',
    nth_error projects (List.length before) = Some failedProject
    /\ backupAsana fuel w0
       = (Ok {| statusCode := 200;
                json := BackupCompleted true "Backup completed" summary |}, w')
    /\ Summary.results summary
       = (before ++ failedResult failedProject message :: after)%list
    /\ BackupResult.status (failedResult failedProject message) = "failed"
    /\ BackupResult.error (failedResult failedProject message) = Some message
    /\ Forall (fun r => BackupResult.status r = "success") (before ++ after)
    /\ map BackupResult.project (Summary.results summary)
       = map Project.name projects
    /\ List.length (Summary.results summary) = List.length projects
    /\ Summary.totalProjects summary = List.length projects
    /\ Summary.successful summary = List.length projects - 1
    /\ Summary.failed summary = 1.
Proof.
  intros Hfetch Hattempts.
  destruct (backupLoop_one_failure fuel projects w [] before message after Hattempts)
    as (p & w1 & Hnth & Hrun & Hb & Ha & Hnames).
  simpl in Hrun.
  assert (Hlen : List.length (before ++ failedResult p message :: after)
                 = List.length projects).
  { rewrite <- (length_map BackupResult.project), Hnames. apply length_map. }
  destruct (count_succeeded before Hb) as [Hb1 Hb2].
  destruct (count_succeeded after Ha) as [Ha1 Ha2].
  exists p. eexists. eexists.
  split; [exact Hnth|].
  split.
  { unfold backupAsana, try_catch, bind. rewrite Hfetch, Hrun.
    unfold new_Date_toISOString, ret. reflexivity. }
  simpl.
  repeat split; try assumption.
  - apply Forall_app. now split.
  - rewrite filter_app, Hb1.
    change (filter (hasStatus "success") (failedResult p message :: after))
      with (filter (hasStatus "success") after).
    rewrite Ha1, <- Hlen, !length_app. simpl. lia.
  - rewrite filter_app, Hb2.
    change (filter (hasStatus "failed") (failedResult p message :: after))
      with (failedResult p message :: filter (hasStatus "failed") after).
    now rewrite Ha2.
Qed.

Lemma backup_isolates_failure_witness :
  exists summary w',
    backupAsana 5 (worldOf envConfigured betaUnavailable emptyDrive)
    = (Ok {| statusCode := 200;
             json := BackupCompleted true "Backup completed" summary |}, w')
    /\ Summary.results summary
       = [ successResult projectAlpha 1 "id0" "id1" "2024-05-01";
           failedResult projectBeta "Request failed with status code 500";
           successResult projectGamma 0 "id2" "id3" "2024-05-01" ]
    /\ Summary.totalProjects summary = 3
    /\ Summary.successful summary = 2
    /\ Summary.failed summary = 1.
Proof.
  destruct (backup_isolates_failure 5
              (worldOf envConfigured betaUnavailable emptyDrive)
              [projectAlpha; projectBeta; projectGamma]
              (snd (fetchAsanaProjects (worldOf envConfigured betaUnavailable emptyDrive)))
              [successResult projectAlpha 1 "id0" "id1" "2024-05-01"]
              "Request failed with status code 500"
              [successResult projectGamma 0 "id2" "id3" "2024-05-01"])
    as (p & summary & w' & Hnth & Hrun & Hres & _ & _ & _ & _ & _
        & Htotal & Hok & Hfailed).
  - reflexivity.
  - vm_compute. reflexivity.
  - injection Hnth as <-. exists summary, w'.
    repeat split; assumption.
Defined.

(** ** The summary *)

Lemma count_settled (l : list BackupResult.t) :
  Forall settled l ->
  List.length (filter (hasStatus "success") l)
  + List.length (filter (hasStatus "failed") l) = List.length l.
Proof.
  induction 1 as [|r l Hr _ IH]; [reflexivity|].
  assert (Hs : hasStatus "success" r = true /\ hasStatus "failed" r = false
               \/ hasStatus "success" r = false /\ hasStatus "failed" r = true).
  { unfold hasStatus. destruct Hr as [Hr|Hr]; rewrite Hr; auto. }
  simpl. destruct Hs as [[-> ->]|[-> ->]]; simpl; lia.
Qed.

Lemma backupLoop_Ok fuel projects :
  forall w acc rs w',
    backupLoop fuel projects acc w = (Ok rs, w') ->
    exists new,
      rs = (acc ++ new)%list
      /\ Forall settled new
      /\ map BackupResult.project new = map Project.name projects.
Proof.
  induction projects as [|p projects IH]; intros w acc rs w' H; simpl in H.
  - unfold ret in H. injection H as <- _. exists []. now rewrite app_nil_r.
  - invert_bind H.
    apply IH in H as (new & -> & Hall & Hnames).
    exists (a :: new). rewrite <- app_assoc. split; [reflexivity|].
    apply try_catch_Ok in Hstep as [Hok | (e & w1 & _ & Hfail)].
    + apply backupAttempt_Ok in Hok as [Hs Hp].
      split; [constructor; [now left | assumption] | simpl; congruence].
    + unfold ret in Hfail. injection Hfail as <- _.
      split; [constructor; [now right | assumption] | simpl; congruence].
Qed.

(** C10. Every Summary that a completed run answers with satisfies
    successful + failed = totalProjects = the length of results, where
    totalProjects is the length of the fetched project list; results holds
    one entry per project, in project order, and the status of every entry
    is "success" or "failed". *)
Theorem summary_count_invariant fuel w response w' success message summary :
  backupAsana fuel w = (Ok response, w') ->
  json response = BackupCompleted success message summary ->
  exists projects w1,
    fetchAsanaProjects w = (Ok projects, w1)
    /\ Summary.totalProjects summary = List.length projects
    /\ Summary.successful summary + Summary.failed summary
       = Summary.totalProjects summary
    /\ Summary.totalProjects summary = List.length (Summary.results summary)
    /\ map BackupResult.project (Summary.results summary)
       = map Project.name projects
    /\ Forall (fun r => BackupResult.status r = "success"
                        \/ BackupResult.status r = "failed")
         (Summary.results summary).
Proof.
  intros Hrun Hjson. unfold backupAsana in Hrun.
  apply try_catch_Ok in Hrun as [Hrun | (e & w1 & _ & Hfail)].
  - invert_bind Hrun. rename a into projects, Hstep into Hfetch.
    invert_bind Hrun. rename a into results, Hstep into Hloop.
    invert_bind Hrun. unfold ret in Hrun. injection Hrun as <- _.
    simpl in Hjson. injection Hjson as _ _ <-.
    apply backupLoop_Ok in Hloop as (new & -> & Hall & Hnames).
    simpl in *.
    assert (Hlen : List.length new = List.length projects).
    { rewrite <- (length_map BackupResult.project), Hnames. apply length_map. }
    exists projects, w0. repeat split; try assumption.
    + now rewrite count_settled.
    + now rewrite Hlen.
  - unfold ret in Hfail. injection Hfail as <- _. discriminate.
Qed.

Lemma summary_count_invariant_witness :
  exists projects w1,
    fetchAsanaProjects (worldOf envConfigured alphaBeta emptyDrive)
    = (Ok projects, w1)
    /\ Summary.totalProjects summaryAlphaBeta = List.length projects
    /\ Summary.successful summaryAlphaBeta + Summary.failed summaryAlphaBeta
       = Summary.totalProjects summaryAlphaBeta
    /\ Summary.totalProjects summaryAlphaBeta
       = List.length (Summary.results summaryAlphaBeta)
    /\ map BackupResult.project (Summary.results summaryAlphaBeta)
       = map Project.name projects
    /\ Forall (fun r => BackupResult.status r = "success"
                        \/ BackupResult.status r = "failed")
         (Summary.results summaryAlphaBeta).
Proof.
  apply (summary_count_invariant 5
           (worldOf envConfigured alphaBeta emptyDrive)
           {| statusCode := 200;
              json := BackupCompleted true "Backup completed" summaryAlphaBeta |}
           (snd (backupAsana 5 (worldOf envConfigured alphaBeta emptyDrive)))
           true "Backup completed" summaryAlphaBeta).
  - vm_compute. reflexivity.
  - reflexivity.
Defined.

(** ** The folder search *)

Lemma lex_literal (s acc rest : string) :
  plain s = true ->
  lex (InString acc) (s ++ String "'" rest)
  = option_map (cons (TString (acc ++ s))) (lex Idle rest).
Proof.
  revert acc. induction s as [|c s IH]; intros acc Hs.
  - simpl. now rewrite append_empty_r.
  - simpl in Hs. apply andb_prop in Hs as [Hc Hs].
    apply andb_prop in Hc as [Hq Hb].
    apply negb_true_iff in Hq, Hb.
    simpl. rewrite Hq, Hb, IH by exact Hs.
    unfold snoc. now rewrite append_assoc.
Qed.

Lemma satisfies_folder_terms (folderName parent : string) (f : DriveFile) :
  forallb (satisfies f)
    [ NameIs folderName; InParents parent; MimeTypeIs folderMime; TrashedIs false ]
  = isFolderNamed folderName parent f.
Proof.
  unfold isFolderNamed. simpl.
  destruct (name f =? folderName), (existsb (String.eqb parent) (parents f)),
    (mimeType f =? folderMime), (trashed f); reflexivity.
Qed.

Lemma isFolderNamed_folder (fileId folderName parent : string) :
  isFolderNamed folderName parent (folder fileId folderName parent) = true.
Proof.
  unfold isFolderNamed, folder. simpl. now rewrite !String.eqb_refl.
Qed.

Section PlainNames.

(** A folder name and a parent id that hold no single quote and no
    backslash. *)
Variables folderName parent : string.
Hypothesis plain_name : plain folderName = true.
Hypothesis plain_parent : plain parent = true.

(** The store reads in the query the four conditions the source means. *)
Lemma parseQuery_folderQuery :
  parseQuery (folderQuery folderName (Some parent))
  = Some [ NameIs folderName; InParents parent; MimeTypeIs folderMime;
           TrashedIs false ].
Proof.
  unfold parseQuery, folderQuery. simpl.
  rewrite lex_literal by exact plain_name. simpl.
  rewrite lex_literal by exact plain_parent. simpl.
  reflexivity.
Qed.

(** The search selects exactly the non-trashed folders of that name under
    that parent, in the store's order. *)
Lemma files_list_folderQuery (d : Drive) :
  files_list (folderQuery folderName (Some parent)) d
  = (Ok (filter (isFolderNamed folderName parent) (files d)), d).
Proof.
  unfold files_list. rewrite parseQuery_folderQuery.
  f_equal. f_equal. apply filter_ext. intros f.
  apply satisfies_folder_terms.
Qed.

Lemma findOrCreateFolder_found w first rest :
  drive_faults w (drive_calls w) = None ->
  filter (isFolderNamed folderName parent) (files (drive w)) = first :: rest ->
  exists w',
    findOrCreateFolder folderName (Some parent) w = (Ok (id first), w')
    /\ drive w' = drive w
    /\ drive_faults w' = drive_faults w.
Proof.
  intros Hfault Hfound.
  unfold findOrCreateFolder, bind, drive_call.
  rewrite Hfault, files_list_folderQuery, Hfound.
  unfold ret. eexists. repeat split.
Qed.

Lemma findOrCreateFolder_created w :
  drive_faults w (drive_calls w) = None ->
  drive_faults w (S (drive_calls w)) = None ->
  filter (isFolderNamed folderName parent) (files (drive w)) = [] ->
  exists w',
    findOrCreateFolder folderName (Some parent) w
    = (Ok (mint (next_id (drive w))), w')
    /\ files (drive w')
       = folder (mint (next_id (drive w))) folderName parent :: files (drive w)
    /\ drive_faults w' = drive_faults w.
Proof.
  intros Hfault1 Hfault2 Hnone.
  unfold findOrCreateFolder, bind, drive_call.
  rewrite Hfault1, files_list_folderQuery, Hnone.
  simpl. rewrite Hfault2. unfold ret. simpl.
  eexists. repeat split.
Qed.

(** C5, amended. For every folder name and parent id that hold no single
    quote and no backslash, with a store that answers every call, calling
    [findOrCreateFolder] twice in sequence returns the same folder
    identifier both times; the second call finds the folder and creates
    nothing, and the two calls create at most one folder in total: exactly
    one, with that identifier, when the store held no such folder before
    the first call, and none when it did (the identifier is then that of
    the first folder the search lists). *)
Theorem findOrCreateFolder_twice w :
  (forall n, drive_faults w n = None) ->
  exists folderId w1 w2,
    findOrCreateFolder folderName (Some parent) w = (Ok folderId, w1)
    /\ findOrCreateFolder folderName (Some parent) w1 = (Ok folderId, w2)
    /\ files (drive w2) = files (drive w1)
    /\ match filter (isFolderNamed folderName parent) (files (drive w)) with
       | [] => files (drive w1) = folder folderId folderName parent :: files (drive w)
       | first :: _ => files (drive w1) = files (drive w) /\ folderId = id first
       end.
Proof.
  intros Hfaults.
  destruct (filter (isFolderNamed folderName parent) (files (drive w)))
    as [|first rest] eqn:Hsearch.
  - destruct (findOrCreateFolder_created w (Hfaults _) (Hfaults _) Hsearch)
      as (w1 & Hrun1 & Hfiles & Hf1).
    assert (Hsearch1 :
      filter (isFolderNamed folderName parent) (files (drive w1))
      = [folder (mint (next_id (drive w))) folderName parent]).
    { rewrite Hfiles. simpl. now rewrite isFolderNamed_folder, Hsearch. }
    destruct (findOrCreateFolder_found w1 _ _
                ltac:(rewrite Hf1; apply Hfaults) Hsearch1)
      as (w2 & Hrun2 & Hdrive & _).
    exists (mint (next_id (drive w))), w1, w2.
    repeat split; [exact Hrun1 | exact Hrun2 | now rewrite Hdrive | exact Hfiles].
  - destruct (findOrCreateFolder_found w _ _ (Hfaults _) Hsearch)
      as (w1 & Hrun1 & Hdrive1 & Hf1).
    assert (Hsearch1 :
      filter (isFolderNamed folderName parent) (files (drive w1)) = first :: rest)
      by now rewrite Hdrive1.
    destruct (findOrCreateFolder_found w1 _ _
                ltac:(rewrite Hf1; apply Hfaults) Hsearch1)
      as (w2 & Hrun2 & Hdrive2 & _).
    exists (id first), w1, w2.
    repeat split; [exact Hrun1 | exact Hrun2 | now rewrite Hdrive2
                  | now rewrite Hdrive1].
Qed.

End PlainNames.

(** C5, as stated, fails: when the folder is in the store before the first
    call, the two calls return its identifier and create no folder at all,
    not exactly one. *)
Lemma findOrCreateFolder_twice_existing :
  fst (findOrCreateFolder "Alpha - Asana Backup" (Some "root")
         (worldOf envConfigured silentAsana driveWithFolders)) = Ok "f1"
  /\ fst (findOrCreateFolder "Alpha - Asana Backup" (Some "root")
            (snd (findOrCreateFolder "Alpha - Asana Backup" (Some "root")
                    (worldOf envConfigured silentAsana driveWithFolders))))
     = Ok "f1"
  /\ files (drive
       (snd (findOrCreateFolder "Alpha - Asana Backup" (Some "root")
          (snd (findOrCreateFolder "Alpha - Asana Backup" (Some "root")
                  (worldOf envConfigured silentAsana driveWithFolders))))))
     = files driveWithFolders
  /\ List.length (files (drive
       (snd (findOrCreateFolder "Alpha - Asana Backup" (Some "root")
          (snd (findOrCreateFolder "Alpha - Asana Backup" (Some "root")
                  (worldOf envConfigured silentAsana driveWithFolders)))))))
     <> S (List.length (files driveWithFolders)).
Proof.
  repeat split; try reflexivity. vm_compute. discriminate.
Qed.

Lemma findOrCreateFolder_twice_witness :
  exists folderId w1 w2,
    findOrCreateFolder "Beta - Asana Backup" (Some "root")
      (worldOf envConfigured silentAsana driveWithFolders) = (Ok folderId, w1)
    /\ findOrCreateFolder "Beta - Asana Backup" (Some "root") w1 = (Ok folderId, w2)
    /\ files (drive w2) = files (drive w1)
    /\ files (drive w1)
       = folder folderId "Beta - Asana Backup" "root" :: files driveWithFolders.
Proof.
  exact (findOrCreateFolder_twice "Beta - Asana Backup" "root" eq_refl eq_refl
           (worldOf envConfigured silentAsana driveWithFolders)
           (fun _ => eq_refl)).
Defined.

(** C6 at a folder name with an apostrophe: the store holds a folder of
    exactly that name under the parent, yet the query the source builds is
    not one the store can read, and the call throws instead of returning
    the folder's identifier; with no such folder in the store it throws as
    well, and creates nothing. *)
Lemma findOrCreateFolder_apostrophe :
  filter (isFolderNamed "Bob's Plan - Asana Backup" "root") (files driveWithFolders)
  = [folder "f2" "Bob's Plan - Asana Backup" "root"]
  /\ parseQuery (folderQuery "Bob's Plan - Asana Backup" (Some "root")) = None
  /\ fst (findOrCreateFolder "Bob's Plan - Asana Backup" (Some "root")
            (worldOf envConfigured silentAsana driveWithFolders))
     = Throw "Invalid Value"
  /\ fst (findOrCreateFolder "Bob's Plan - Asana Backup" (Some "root")
            (worldOf envConfigured silentAsana emptyDrive))
     = Throw "Invalid Value"
  /\ drive (snd (findOrCreateFolder "Bob's Plan - Asana Backup" (Some "root")
                   (worldOf envConfigured silentAsana emptyDrive)))
     = emptyDrive.
Proof. repeat split. Qed.

(** ** Further properties of the run *)

Lemma fetchLoop_fails a e gid log offset n message :
  FailsAfter a e gid log offset n message ->
  forall w tasks fuel,
    asana w = a -> env w = e -> asana_log w = log -> n <= fuel ->
    fst (fetchLoop fuel gid tasks offset w) = Throw message.
Proof.
  induction 1 as [log offset message Hreply
                 |log offset body n message Hreply Hmore Hrest IH];
    intros w tasks fuel Ha He Hlog Hfuel.
  - destruct fuel as [|fuel]; [lia|].
    simpl. unfold bind, getEnv, axios_get.
    now rewrite Ha, He, Hlog, Hreply.
  - destruct fuel as [|fuel]; [lia|].
    simpl. unfold bind, getEnv, axios_get.
    rewrite Ha, He, Hlog, Hreply.
    fold (continuationToken body). rewrite Hmore.
    apply IH; try reflexivity; try assumption; lia.
Qed.

(** X1. A failure on a later page discards the pages already fetched: the
    call throws the failure's message and returns no task list. *)
Theorem fetchProjectTasks_page_failure w projectGid n message fuel :
  FailsAfter (asana w) (env w) projectGid (asana_log w) None n message ->
  n <= fuel ->
  fst (fetchProjectTasks fuel projectGid w) = Throw message.
Proof.
  intros Hfails Hfuel. unfold fetchProjectTasks.
  now apply (fetchLoop_fails _ _ _ _ _ _ _ Hfails).
Qed.

Lemma fetchProjectTasks_page_failure_witness :
  fst (fetchProjectTasks 5 "501" (worldOf envConfigured thirdPageDown emptyDrive))
  = Throw "Request failed with status code 429".
Proof.
  apply (fetchProjectTasks_page_failure
           (worldOf envConfigured thirdPageDown emptyDrive) "501" 3).
  - eapply Fails_later; [reflexivity | reflexivity |].
    eapply Fails_later; [reflexivity | reflexivity |].
    apply Fails_now. reflexivity.
  - lia.
Defined.

Lemma fetchLoop_endless a fuel :
  (forall log r, exists body,
      tasks_api a log r = Body body
      /\ JS.truthy (continuationToken body) = true) ->
  forall w gid tasks offset,
    asana w = a ->
    fst (fetchLoop fuel gid tasks offset w) = Diverge.
Proof.
  intros Hmore. induction fuel as [|fuel IH]; intros w gid tasks offset Ha;
    [reflexivity|].
  simpl. unfold bind, getEnv, axios_get. rewrite Ha.
  destruct (Hmore (asana_log w) (tasksRequest (env w) gid offset))
    as (body & -> & Htoken).
  fold (continuationToken body). rewrite Htoken.
  now apply IH.
Qed.

(** X2. The loop ends only when the source reports no further token:
    against a source that hands out a token with every page, no amount of
    fuel makes [fetchProjectTasks] return. *)
Theorem fetchProjectTasks_endless w projectGid fuel :
  (forall log r, exists body,
      tasks_api (asana w) log r = Body body
      /\ JS.truthy (continuationToken body) = true) ->
  fst (fetchProjectTasks fuel projectGid w) = Diverge.
Proof.
  intros Hmore. unfold fetchProjectTasks.
  now apply (fetchLoop_endless (asana w)).
Qed.

Lemma fetchProjectTasks_endless_witness :
  fst (fetchProjectTasks 40 "501" (worldOf envConfigured endless emptyDrive))
  = Diverge.
Proof.
  apply (fetchProjectTasks_endless (worldOf envConfigured endless emptyDrive)).
  intros log r. eexists. split; reflexivity.
Defined.

(** X3. An error outside the loop ends the run: when the project listing
    fails, the answer is a 500 with the error's message. *)
Theorem backupAsana_run_level_error fuel w message w1 :
  fetchAsanaProjects w = (Throw message, w1) ->
  backupAsana fuel w
  = (Ok {| statusCode := 500; json := BackupFailed false message |}, w1).
Proof.
  intros H. unfold backupAsana, try_catch, bind. now rewrite H.
Qed.

Lemma backupAsana_run_level_error_witness :
  fst (backupAsana 5 (worldOf envConfigured asanaDown emptyDrive))
  = Ok {| statusCode := 500;
          json := BackupFailed false "Request failed with status code 401" |}.
Proof.
  rewrite (backupAsana_run_level_error 5
             (worldOf envConfigured asanaDown emptyDrive)
             "Request failed with status code 401"
             (snd (fetchAsanaProjects (worldOf envConfigured asanaDown emptyDrive)))).
  - reflexivity.
  - reflexivity.
Defined.

(** The liveness probe always succeeds, with the current reading of the
    clock. *)
Theorem health_answers (w : World) :
  health w
  = (Ok {| statusCode := 200; json := Healthy "healthy" (clock w (ticks w)) |},
     set_ticks (S (ticks w)) w).
Proof. reflexivity. Qed.

(** The end-to-end example: a workspace with the projects Alpha (one
    completed task) and Beta (no task).  The Summary counts two projects,
    both successful; the Tasks tab of Alpha's document holds the header and
    one row whose status is "Completed", that of Beta's the header alone. *)
Theorem end_to_end_example :
  fst (backupAsana 5 (worldOf envConfigured alphaBeta emptyDrive))
  = Ok {| statusCode := 200;
          json := BackupCompleted true "Backup completed" summaryAlphaBeta |}
  /\ tabValues "id1" "Tasks"
       (drive (snd (backupAsana 5 (worldOf envConfigured alphaBeta emptyDrive))))
     = Some [ headers;
              [ CStr "Write the report"; CStr "Completed"; CStr "Olga";
                CStr "2024-05-01T12:00:00.000Z"; CStr "2024-04-30T09:00:00.000Z";
                CStr "report, q2"; CStr "First draft";
                CStr "https://app.asana.com/0/501/1002";
                CStr "2024-04-02T08:00:00.000Z"; CStr "2024-04-30T09:00:00.000Z" ] ]
  /\ tabValues "id3" "Tasks"
       (drive (snd (backupAsana 5 (worldOf envConfigured alphaBeta emptyDrive))))
     = Some [ headers ].
Proof.
  split; [|split]; vm_compute; reflexivity.
Qed.

(** X4. For a folder name and a parent id that hold no single quote and no
    backslash, the search that [findOrCreateFolder] issues selects exactly
    the non-trashed folders of that name under that parent, in the store's
    order, and leaves the store as it is. *)
Theorem folder_search_exact (folderName parent : string) (d : Drive) :
  plain folderName = true -> plain parent = true ->
  files_list (folderQuery folderName (Some parent)) d
  = (Ok (filter (isFolderNamed folderName parent) (files d)), d).
Proof.
  intros Hn Hp. exact (files_list_folderQuery folderName parent Hn Hp d).
Qed.

Lemma folder_search_exact_witness :
  files_list (folderQuery "Alpha - Asana Backup" (Some "root")) driveWithFolders
  = (Ok [folder "f1" "Alpha - Asana Backup" "root"], driveWithFolders).
Proof.
  exact (folder_search_exact "Alpha - Asana Backup" "root" driveWithFolders
           eq_refl eq_refl).
Defined.



(** ** What a call may change *)

Lemma grows_refl (d : Drive) : grows d d.
Proof. now exists [], []. Qed.

Lemma grows_trans (d1 d2 d3 : Drive) : grows d1 d2 -> grows d2 d3 -> grows d1 d3.
Proof.
  intros (fs & docs & Hf & Hd) (fs' & docs' & Hf' & Hd').
  exists (fs' ++ fs)%list, (docs' ++ docs)%list.
  rewrite Hf', Hd', Hf, Hd, !app_assoc. now split.
Qed.

Lemma sameSetting_refl (w : World) : sameSetting w w.
Proof. now repeat split. Qed.

Lemma sameSetting_trans (w1 w2 w3 : World) :
  sameSetting w1 w2 -> sameSetting w2 w3 -> sameSetting w1 w3.
Proof.
  intros (He & Ha & Hf & Hc) (He' & Ha' & Hf' & Hc').
  repeat split; congruence.
Qed.

Lemma storeSide_refl (w : World) : storeSide w w.
Proof. split; [apply sameSetting_refl | split; [reflexivity | apply grows_refl]]. Qed.

Lemma storeSide_trans (w1 w2 w3 : World) :
  storeSide w1 w2 -> storeSide w2 w3 -> storeSide w1 w3.
Proof.
  intros (Hs & Hl & Hg) (Hs' & Hl' & Hg').
  split; [eapply sameSetting_trans; eassumption|].
  split; [congruence | eapply grows_trans; eassumption].
Qed.

Lemma runStep_refl (w : World) : runStep w w.
Proof.
  split; [apply sameSetting_refl | split; [apply grows_refl|]].
  exists []. now rewrite app_nil_r.
Qed.

Lemma runStep_trans (w1 w2 w3 : World) :
  runStep w1 w2 -> runStep w2 w3 -> runStep w1 w3.
Proof.
  intros (Hs & Hg & reqs & Hl & Hall) (Hs' & Hg' & reqs' & Hl' & Hall').
  split; [eapply sameSetting_trans; eassumption|].
  split; [eapply grows_trans; eassumption|].
  exists (reqs ++ reqs')%list. split.
  - now rewrite Hl', Hl, app_assoc.
  - apply Forall_app. split; [assumption|].
    destruct Hs as (He & _). now rewrite <- He.
Qed.

Lemma storeSide_runStep (w w' : World) : storeSide w w' -> runStep w w'.
Proof.
  intros (Hs & Hl & Hg). split; [assumption | split; [assumption|]].
  exists []. now rewrite app_nil_r.
Qed.

Lemma sourceSide_runStep (w w' : World) : sourceSide w w' -> runStep w w'.
Proof.
  intros (Hs & Hd & _ & _ & Hreqs). split; [assumption | split; [|assumption]].
  rewrite Hd. apply grows_refl.
Qed.

Section After.

(** A relation between worlds that composes. *)
Variable R : World -> World -> Prop.
Hypothesis R_refl : forall w, R w w.
Hypothesis R_trans : forall w1 w2 w3, R w1 w2 -> R w2 w3 -> R w1 w3.

Lemma after_ret {A : Type} (a : A) : after (ret a) R.
Proof. intros w. apply R_refl. Qed.

Lemma after_throw {A : Type} (message : string) : after (@throw A message) R.
Proof. intros w. apply R_refl. Qed.

Lemma after_getEnv {A : Type} (f : Env -> A) : after (getEnv f) R.
Proof. intros w. apply R_refl. Qed.

Lemma after_bind {A B : Type} (m : M A) (k : A -> M B) :
  after m R -> (forall a, after (k a) R) -> after (bind m k) R.
Proof.
  intros Hm Hk w. specialize (Hm w). unfold bind.
  destruct (m w) as [[a|e|] w1]; simpl in *; try assumption.
  eapply R_trans; [exact Hm | apply Hk].
Qed.

Lemma after_try_catch {A : Type} (body : M A) (handler : string -> M A) :
  after body R -> (forall e, after (handler e) R) ->
  after (try_catch body handler) R.
Proof.
  intros Hm Hh w. specialize (Hm w). unfold try_catch.
  destruct (body w) as [[a|e|] w1]; simpl in *; try assumption.
  eapply R_trans; [exact Hm | apply Hh].
Qed.

End After.

(** ** The destination-store client, however it ends *)

Lemma after_date : after new_Date_toISOString storeSide.
Proof. intros w. repeat split. apply grows_refl. Qed.

Lemma after_drive_call {A : Type} (op : Drive -> Outcome A * Drive) :
  (forall d, grows d (snd (op d))) -> after (drive_call op) storeSide.
Proof.
  intros Hop w. unfold drive_call.
  destruct (drive_faults w (drive_calls w)).
  - repeat split. apply grows_refl.
  - specialize (Hop (drive w)). destruct (op (drive w)) as [r d].
    repeat split. exact Hop.
Qed.

Lemma files_list_grows (q : string) (d : Drive) : grows d (snd (files_list q d)).
Proof. unfold files_list. destruct (parseQuery q); apply grows_refl. Qed.

Lemma files_create_grows (n m : string) (ps : list JS.nullable) (d : Drive) :
  grows d (snd (files_create n m ps d)).
Proof.
  unfold files_create. destruct (all_present ps) as [l|]; [|apply grows_refl].
  simpl. eexists [_], []. now split.
Qed.

Lemma findOrCreateFolder_storeSide (folderName : string) (parentFolderId : JS.nullable) :
  after (findOrCreateFolder folderName parentFolderId) storeSide.
Proof.
  unfold findOrCreateFolder.
  apply (after_bind storeSide storeSide_trans).
  - apply after_drive_call, files_list_grows.
  - intros [|first rest].
    + apply (after_bind storeSide storeSide_trans).
      * apply after_drive_call, files_create_grows.
      * intros folder. apply (after_ret storeSide storeSide_refl).
    + apply (after_ret storeSide storeSide_refl).
Qed.

Ltac later_fault :=
  match goal with
  | |- context [match drive_faults ?w ?n with _ => _ end] =>
      destruct (drive_faults w n);
      [ simpl; intros H; injection H as <- <-; simpl;
        split; [now repeat split|];
        split; [reflexivity|];
        right; split; [reflexivity|];
        eexists; eexists; repeat split
      | ]
  end;
  simpl;
  unfold values_update, batchUpdate, files_update, find_document,
    set_documents, set_sheets;
  simpl; rewrite ?String.eqb_refl; simpl; rewrite ?String.eqb_refl; simpl.

(** [createTasksSpreadsheet], however it ends: nothing is undone.  When
    the creation itself fails the store is as before; once the document is
    created it stays in the store, whichever later call fails. *)
Lemma createTasksSpreadsheet_run fileName folderId project tasks w r w' :
  createTasksSpreadsheet fileName folderId project tasks w = (r, w') ->
  sameSetting w w'
  /\ asana_log w' = asana_log w
  /\ match r with
     | Ok sid =>
         sid = mint (next_id (drive w))
         /\ files (drive w') = spreadsheetFile sid fileName folderId :: files (drive w)
         /\ documents (drive w')
            = backupDocument sid fileName project tasks (clock w (ticks w))
                :: documents (drive w)
     | Throw message =>
         (drive w' = drive w /\ drive_faults w (drive_calls w) = Some message)
         \/ (drive_faults w (drive_calls w) = None
             /\ exists f doc,
                  files (drive w') = f :: files (drive w)
                  /\ id f = mint (next_id (drive w)) /\ name f = fileName
                  /\ documents (drive w') = doc :: documents (drive w)
                  /\ spreadsheetId doc = mint (next_id (drive w))
                  /\ title doc = fileName)
     | Diverge => False
     end.
Proof.
  unfold createTasksSpreadsheet, bind, drive_call, new_Date_toISOString, ret.
  Opaque mint.
  simpl.
  destruct (drive_faults w (drive_calls w)) eqn:Hfirst.
  { simpl. intros H. injection H as <- <-. simpl.
    split; [now repeat split|]. split; [reflexivity|]. now left. }
  simpl.
  unfold values_update, batchUpdate, files_update, find_document,
    set_documents, set_sheets;
  simpl; rewrite ?String.eqb_refl; simpl.
  repeat later_fault.
  Transparent mint.
  intros H. injection H as <- <-. simpl.
  split; [now repeat split|]. split; [reflexivity|].
  unfold backupDocument, spreadsheetFile, write_sheet. simpl.
  rewrite !overlay_empty. now repeat split.
Qed.

Lemma createTasksSpreadsheet_storeSide fileName folderId project tasks :
  after (createTasksSpreadsheet fileName folderId project tasks) storeSide.
Proof.
  intros w.
  destruct (createTasksSpreadsheet fileName folderId project tasks w) as [r w'] eqn:E.
  apply createTasksSpreadsheet_run in E as (Hs & Hl & Hr). simpl.
  split; [exact Hs | split; [exact Hl|]].
  destruct r as [sid|message|]; [| |contradiction].
  - destruct Hr as (_ & Hf & Hd). eexists [_], [_].
    split; [exact Hf | exact Hd].
  - destruct Hr as [[Hd _]|(_ & f & doc & Hf & _ & _ & Hd & _)].
    + rewrite Hd. apply grows_refl.
    + exists [f], [doc]. split; [exact Hf | exact Hd].
Qed.

Lemma createProjectBackup_storeSide project tasks :
  after (createProjectBackup project tasks) storeSide.
Proof.
  unfold createProjectBackup.
  apply (after_try_catch storeSide storeSide_trans);
    [|intros e; apply (after_throw storeSide storeSide_refl)].
  apply (after_bind storeSide storeSide_trans);
    [apply (after_getEnv storeSide storeSide_refl)|intros root].
  apply (after_bind storeSide storeSide_trans);
    [apply findOrCreateFolder_storeSide|intros folderId].
  apply (after_bind storeSide storeSide_trans); [apply after_date|intros now].
  apply (after_bind storeSide storeSide_trans);
    [apply createTasksSpreadsheet_storeSide|intros sid].
  apply (after_ret storeSide storeSide_refl).
Qed.

(** ** The source client, however it ends *)

Lemma axios_get_sourceSide {A : Type}
    (endpoint : Asana -> list AsanaRequest -> AsanaRequest -> Reply A)
    (request : AsanaRequest) (w : World) :
  pageRequest (env w) request ->
  sourceSide w (snd (axios_get endpoint request w)).
Proof.
  intros Hreq. unfold axios_get.
  destruct (endpoint (asana w) (asana_log w) request); simpl;
    (split; [now repeat split|]; repeat (split; [reflexivity|]);
     exists [request]; split; [reflexivity | now constructor]).
Qed.

Lemma sourceSide_refl (w : World) : sourceSide w w.
Proof.
  split; [apply sameSetting_refl|]. repeat (split; [reflexivity|]).
  exists []. now rewrite app_nil_r.
Qed.

Lemma sourceSide_trans (w1 w2 w3 : World) :
  sourceSide w1 w2 -> sourceSide w2 w3 -> sourceSide w1 w3.
Proof.
  intros (Hs & Hd & Hc & Ht & reqs & Hl & Hall)
         (Hs' & Hd' & Hc' & Ht' & reqs' & Hl' & Hall').
  split; [eapply sameSetting_trans; eassumption|].
  repeat (split; [congruence|]).
  exists (reqs ++ reqs')%list. split.
  - now rewrite Hl', Hl, app_assoc.
  - apply Forall_app. split; [assumption|].
    destruct Hs as (He & _). now rewrite <- He.
Qed.

Lemma fetchLoop_sourceSide fuel projectGid :
  forall tasks offset, after (fetchLoop fuel projectGid tasks offset) sourceSide.
Proof.
  induction fuel as [|fuel IH]; intros tasks offset w.
  - apply sourceSide_refl.
  - simpl. unfold bind at 1. unfold getEnv at 1. unfold bind.
    pose proof (axios_get_sourceSide tasks_api
                  (tasksRequest (env w) projectGid offset) w
                  (ex_intro _ projectGid (ex_intro _ offset eq_refl)))
      as H.
    destruct (axios_get tasks_api (tasksRequest (env w) projectGid offset) w)
      as [[body|e|] w1]; simpl in *; try exact H.
    destruct (JS.truthy (next_page body ?. NextPage.offset)).
    + eapply sourceSide_trans; [exact H | apply IH].
    + exact H.
Qed.

Lemma fetchProjectTasks_sourceSide fuel projectGid :
  after (fetchProjectTasks fuel projectGid) sourceSide.
Proof. apply fetchLoop_sourceSide. Qed.

(** ** A whole run, however it ends *)

Lemma after_weaken {A : Type} (m : M A) (R R' : World -> World -> Prop) :
  (forall w w', R w w' -> R' w w') -> after m R -> after m R'.
Proof. intros HR Hm w. apply HR, Hm. Qed.

Lemma backupAttempt_runStep fuel project : after (backupAttempt fuel project) runStep.
Proof.
  unfold backupAttempt.
  apply (after_bind runStep runStep_trans).
  - apply (after_weaken _ sourceSide); [apply sourceSide_runStep|].
    apply fetchProjectTasks_sourceSide.
  - intros tasks. apply (after_bind runStep runStep_trans).
    + apply (after_weaken _ storeSide); [apply storeSide_runStep|].
      apply createProjectBackup_storeSide.
    + intros r. apply (after_ret runStep runStep_refl).
Qed.

Lemma backupLoop_runStep fuel projects :
  forall acc, after (backupLoop fuel projects acc) runStep.
Proof.
  induction projects as [|p projects IH]; intros acc; simpl.
  - apply (after_ret runStep runStep_refl).
  - apply (after_bind runStep runStep_trans); [|intros r; apply IH].
    apply (after_try_catch runStep runStep_trans).
    + apply backupAttempt_runStep.
    + intros e. apply (after_ret runStep runStep_refl).
Qed.

(** The loop catches whatever a project throws. *)
Lemma backupLoop_no_throw fuel projects :
  forall acc w message, fst (backupLoop fuel projects acc w) <> Throw message.
Proof.
  induction projects as [|p projects IH]; intros acc w message; simpl.
  - discriminate.
  - unfold bind, try_catch.
    destruct (backupAttempt fuel p w) as [[r|e|] w1]; simpl.
    + apply IH.
    + apply IH.
    + discriminate.
Qed.

Lemma backupLoop_settles fuel projects :
  forall w acc,
    Forall ended (attempts fuel projects w) ->
    exists w',
      backupLoop fuel projects acc w
      = (Ok (acc ++ settleAll projects (attempts fuel projects w))%list, w').
Proof.
  induction projects as [|p projects IH]; intros w acc Hended; simpl in *.
  - exists w. now rewrite app_nil_r.
  - unfold bind, try_catch.
    destruct (backupAttempt fuel p w) as [[r|e|] w1];
      inversion Hended as [|o os Ho Hos]; subst.
    + destruct (IH w1 (acc ++ [r])%list Hos) as (w' & ->).
      exists w'. now rewrite <- app_assoc.
    + unfold ret. destruct (IH w1 (acc ++ [failedResult p e])%list Hos) as (w' & ->).
      exists w'. now rewrite <- app_assoc.
    + now contradiction Ho.
Qed.

Lemma settleAll_counts fuel projects :
  forall w,
    Forall ended (attempts fuel projects w) ->
    List.length (settleAll projects (attempts fuel projects w))
    = List.length projects
    /\ List.length (filter (hasStatus "success")
                      (settleAll projects (attempts fuel projects w)))
       = List.length (filter returned (attempts fuel projects w))
    /\ List.length (filter (hasStatus "failed")
                      (settleAll projects (attempts fuel projects w)))
       = List.length (filter threw (attempts fuel projects w)).
Proof.
  induction projects as [|p projects IH]; intros w Hended; simpl in *;
    [now repeat split|].
  destruct (backupAttempt fuel p w) as [[r|e|] w1] eqn:E;
    inversion Hended as [|o os Ho Hos]; subst.
  - destruct (IH w1 Hos) as (Hlen & Hok & Hfail).
    apply backupAttempt_Ok in E as [Hs _].
    assert (H1 : hasStatus "success" r = true) by (unfold hasStatus; now rewrite Hs).
    assert (H2 : hasStatus "failed" r = false) by (unfold hasStatus; now rewrite Hs).
    simpl. rewrite H1, H2. simpl. now rewrite Hlen, Hok, Hfail.
  - destruct (IH w1 Hos) as (Hlen & Hok & Hfail).
    change (filter (hasStatus "success") (failedResult p e :: ?l))
      with (filter (hasStatus "success") l).
    simpl. now rewrite Hlen, Hok, Hfail.
  - now contradiction Ho.
Qed.

Lemma fetchAsanaProjects_outcome (w : World) :
  (exists projects,
      fetchAsanaProjects w
      = (Ok projects, set_asana_log (asana_log w ++ [projectsRequest (env w)])%list w))
  \/ (exists message,
      fetchAsanaProjects w
      = (Throw message, set_asana_log (asana_log w ++ [projectsRequest (env w)])%list w)).
Proof.
  unfold fetchAsanaProjects, bind, getEnv, axios_get, ret.
  destruct (projects_api (asana w) (asana_log w) (projectsRequest (env w)))
    as [projects|message]; [left | right]; eexists; reflexivity.
Qed.

(** What a run leaves, however it ends. *)
Lemma backupAsana_run fuel w r w' :
  backupAsana fuel w = (r, w') ->
  sameSetting w w'
  /\ grows (drive w) (drive w')
  /\ exists pages,
       asana_log w' = (asana_log w ++ projectsRequest (env w) :: pages)%list
       /\ Forall (pageRequest (env w)) pages.
Proof.
  unfold backupAsana, try_catch, bind.
  destruct (fetchAsanaProjects_outcome w) as [[projects ->]|[message ->]].
  - set (w1 := set_asana_log (asana_log w ++ [projectsRequest (env w)])%list w).
    pose proof (backupLoop_runStep fuel projects [] w1) as Hloop.
    pose proof (backupLoop_no_throw fuel projects [] w1) as Hthrow.
    destruct (backupLoop fuel projects [] w1) as [[rs|e|] w2]; simpl in *;
      [| now contradiction (Hthrow e) |];
      intros H; injection H as <- <-;
      destruct Hloop as ((He & Ha & Hf & Hc) & Hg & pages & Hl & Hall);
      (split; [now repeat split|]); (split; [exact Hg|]);
      exists pages; (split; [|exact Hall]);
      simpl; rewrite Hl; unfold w1; simpl; rewrite <- app_assoc; reflexivity.
  - intros H. injection H as <- <-. simpl.
    split; [now repeat split|]. split; [apply grows_refl|].
    exists []. now split.
Qed.

(** X6. Per-project failures never turn the answer into an error: when
    the project listing succeeds and every attempt ends, by returning or by
    throwing, the answer is a 200 with success true, however many projects
    failed (all of them included).  Its results hold, project by project,
    what the attempt returned or the failed entry made from what it threw;
    successful counts the attempts that returned and failed those that
    threw. *)
Theorem backup_answers_whatever_fails fuel w0 projects w :
  fetchAsanaProjects w0 = (Ok projects, w) ->
  Forall ended (attempts fuel projects w) ->
  exists summary w',
    backupAsana fuel w0
    = (Ok {| statusCode := 200;
             json := BackupCompleted true "Backup completed" summary |}, w')
    /\ Summary.results summary = settleAll projects (attempts fuel projects w)
    /\ List.length (Summary.results summary) = List.length projects
    /\ Summary.successful summary
       = List.length (filter returned (attempts fuel projects w))
    /\ Summary.failed summary
       = List.length (filter threw (attempts fuel projects w)).
Proof.
  intros Hfetch Hended.
  destruct (backupLoop_settles fuel projects w [] Hended) as (w1 & Hloop).
  destruct (settleAll_counts fuel projects w Hended) as (Hlen & Hok & Hfail).
  eexists. eexists. split.
  - unfold backupAsana, try_catch, bind. rewrite Hfetch, Hloop.
    unfold new_Date_toISOString, ret. reflexivity.
  - simpl. now repeat split.
Qed.

Lemma backup_answers_whatever_fails_witness :
  exists summary w',
    backupAsana 5 (worldOf envConfigured tasksDown emptyDrive)
    = (Ok {| statusCode := 200;
             json := BackupCompleted true "Backup completed" summary |}, w')
    /\ Summary.results summary
       = [ failedResult projectAlpha "Request failed with status code 503";
           failedResult projectBeta "Request failed with status code 503";
           failedResult projectGamma "Request failed with status code 503" ]
    /\ Summary.successful summary = 0
    /\ Summary.failed summary = 3.
Proof.
  destruct (backup_answers_whatever_fails 5
              (worldOf envConfigured tasksDown emptyDrive)
              [projectAlpha; projectBeta; projectGamma]
              (snd (fetchAsanaProjects (worldOf envConfigured tasksDown emptyDrive))))
    as (summary & w' & Hrun & Hres & _ & Hok & Hfail).
  - reflexivity.
  - repeat constructor; discriminate.
  - exists summary, w'. repeat split; assumption.
Defined.


(** X8. A 500 answer means that the project listing failed, and nothing
    else: its body holds the listing's error message, and no backup was
    attempted (the world is the one the listing left). *)
Theorem backupAsana_500_means_listing_failed fuel w response w' :
  backupAsana fuel w = (Ok response, w') ->
  statusCode response = 500 ->
  exists message,
    fetchAsanaProjects w = (Throw message, w')
    /\ json response = BackupFailed false message.
Proof.
  unfold backupAsana, try_catch, bind.
  destruct (fetchAsanaProjects_outcome w) as [[projects ->]|[message ->]].
  - pose proof (backupLoop_no_throw fuel projects []
                  (set_asana_log (asana_log w ++ [projectsRequest (env w)])%list w))
      as Hthrow.
    destruct (backupLoop fuel projects [] _) as [[rs|e|] w2]; simpl in *.
    + intros H Hcode. injection H as <- _. discriminate Hcode.
    + now contradiction (Hthrow e).
    + discriminate.
  - simpl. intros H _. injection H as <- <-. now exists message.
Qed.

Lemma backupAsana_500_means_listing_failed_witness :
  exists message,
    fetchAsanaProjects (worldOf envConfigured asanaDown emptyDrive)
    = (Throw message,
       snd (backupAsana 5 (worldOf envConfigured asanaDown emptyDrive)))
    /\ BackupFailed false "Request failed with status code 401"
       = BackupFailed false message.
Proof.
  apply (backupAsana_500_means_listing_failed 5
           (worldOf envConfigured asanaDown emptyDrive)
           {| statusCode := 500;
              json := BackupFailed false "Request failed with status code 401" |}).
  - reflexivity.
  - reflexivity.
Defined.

(** X9. A run only adds to the store: however it ends, every file and
    every document the store held before is still there afterwards,
    unchanged and in the same order, behind whatever the run created. *)
Theorem run_keeps_store fuel w :
  grows (drive w) (drive (snd (backupAsana fuel w))).
Proof.
  destruct (backupAsana fuel w) as [r w'] eqn:E.
  now apply backupAsana_run in E as (_ & Hg & _).
Qed.

(** X10. What a run asks of the source: first the listing of the
    configured workspace, once, and after it nothing but pages of tasks,
    each asked for with a limit of 100; every request carries the
    configured access token as a bearer token. *)
Theorem run_requests fuel w :
  exists pages,
    asana_log (snd (backupAsana fuel w))
    = (asana_log w ++ projectsRequest (env w) :: pages)%list
    /\ Forall (fun r => (exists gid offset, r = tasksRequest (env w) gid offset)
                        /\ limit r = Some 100)
         pages
    /\ Forall (fun r => authorization r
                        = "Bearer " ++ JS.interp (ASANA_ACCESS_TOKEN (env w)))
         (projectsRequest (env w) :: pages).
Proof.
  destruct (backupAsana fuel w) as [r w'] eqn:E.
  apply backupAsana_run in E as (_ & _ & pages & Hlog & Hpages).
  exists pages. split; [exact Hlog|]. split.
  - eapply Forall_impl; [|exact Hpages].
    intros r0 (gid & offset & ->). split; [now exists gid, offset | reflexivity].
  - constructor; [reflexivity|].
    eapply Forall_impl; [|exact Hpages].
    now intros r0 (gid & offset & ->).
Qed.

(** X11. The two clients keep to their side, however they end: fetching
    the tasks of a project never calls the store and never reads the clock,
    and backing a project up never sends a request to the source. *)
Theorem clients_keep_to_their_side fuel project tasks w :
  drive (snd (fetchProjectTasks fuel (Project.gid project) w)) = drive w
  /\ drive_calls (snd (fetchProjectTasks fuel (Project.gid project) w))
     = drive_calls w
  /\ ticks (snd (fetchProjectTasks fuel (Project.gid project) w)) = ticks w
  /\ asana_log (snd (createProjectBackup project tasks w)) = asana_log w.
Proof.
  destruct (fetchProjectTasks_sourceSide fuel (Project.gid project) w)
    as (_ & Hd & Hc & Ht & _).
  destruct (createProjectBackup_storeSide project tasks w) as (_ & Hl & _).
  now repeat split.
Qed.

(** X12. Nothing is undone: when [createTasksSpreadsheet] throws after the
    creation call went through, the new document and its file stay in the
    store, in front of what the store held, whichever of the later calls
    failed. *)
Theorem createTasksSpreadsheet_no_rollback fileName folderId project tasks w
    message w' :
  createTasksSpreadsheet fileName folderId project tasks w = (Throw message, w') ->
  drive_faults w (drive_calls w) = None ->
  exists f doc,
    files (drive w') = f :: files (drive w)
    /\ id f = mint (next_id (drive w)) /\ name f = fileName
    /\ documents (drive w') = doc :: documents (drive w)
    /\ spreadsheetId doc = mint (next_id (drive w)) /\ title doc = fileName.
Proof.
  intros Hrun Hfirst.
  apply createTasksSpreadsheet_run in Hrun as (_ & _ & [[_ Hfault]|(_ & H)]).
  - congruence.
  - exact H.
Qed.

Lemma createTasksSpreadsheet_no_rollback_witness :
  exists f doc,
    files (drive (snd (createTasksSpreadsheet "Backup_2024-05-01" "f1" projectAlpha
                         [taskDone]
                         (withFault 3 "The service is currently unavailable."
                            (worldOf envConfigured silentAsana driveWithFolders)))))
    = f :: files driveWithFolders
    /\ id f = "id0" /\ name f = "Backup_2024-05-01"
    /\ documents (drive (snd (createTasksSpreadsheet "Backup_2024-05-01" "f1"
                                projectAlpha [taskDone]
                                (withFault 3 "The service is currently unavailable."
                                   (worldOf envConfigured silentAsana driveWithFolders)))))
       = doc :: documents driveWithFolders
    /\ spreadsheetId doc = "id0" /\ title doc = "Backup_2024-05-01".
Proof.
  apply (createTasksSpreadsheet_no_rollback "Backup_2024-05-01" "f1" projectAlpha
           [taskDone]
           (withFault 3 "The service is currently unavailable."
              (worldOf envConfigured silentAsana driveWithFolders))
           "The service is currently unavailable.").
  - vm_compute. reflexivity.
  - reflexivity.
Defined.

(** ** A successful backup, step by step *)

Lemma split_head_date (c : ascii) (date time : string) :
  lacks c date = true -> JS.split_head c (date ++ String c time) = date.
Proof.
  induction date as [|a date IH]; simpl; intros H.
  - now rewrite Ascii.eqb_refl.
  - apply andb_prop in H as [Ha Hd]. apply negb_true_iff in Ha.
    now rewrite Ha, IH.
Qed.

Lemma findOrCreateFolder_ticks folderName parentFolderId w :
  ticks (snd (findOrCreateFolder folderName parentFolderId w)) = ticks w
  /\ clock (snd (findOrCreateFolder folderName parentFolderId w)) = clock w
  /\ env (snd (findOrCreateFolder folderName parentFolderId w)) = env w.
Proof.
  unfold findOrCreateFolder, bind, drive_call.
  destruct (drive_faults w (drive_calls w)); [now repeat split|].
  destruct (files_list (folderQuery folderName parentFolderId) (drive w))
    as [[[|first rest]|e|] d]; simpl; try now repeat split.
  destruct (drive_faults w (S (drive_calls w))); [now repeat split|].
  destruct (files_create folderName folderMime [parentFolderId] d)
    as [[f|e|] d']; now repeat split.
Qed.

(** The steps of a backup that returned. *)
Lemma createProjectBackup_steps project tasks w r w' :
  createProjectBackup project tasks w = (Ok r, w') ->
  exists folderId w1 sid,
    findOrCreateFolder (backupFolderName project)
      (GOOGLE_DRIVE_FOLDER_ID (env w)) w = (Ok folderId, w1)
    /\ createTasksSpreadsheet
         ("Backup_" ++ JS.split_head "T" (clock w (ticks w))) folderId
         project tasks (set_ticks (S (ticks w)) w1) = (Ok sid, w')
    /\ r = successResult project (List.length tasks) folderId sid
             (JS.split_head "T" (clock w (ticks w))).
Proof.
  unfold createProjectBackup. intros H.
  apply try_catch_Ok in H as [H | (e & w1 & _ & H)]; [|discriminate].
  apply bind_Ok in H as (root & w0 & Hroot & H).
  unfold getEnv in Hroot. injection Hroot as <- <-.
  apply bind_Ok in H as (folderId & w1 & Hfolder & H).
  apply bind_Ok in H as (now & w2 & Hnow & H).
  unfold new_Date_toISOString in Hnow. injection Hnow as <- <-.
  apply bind_Ok in H as (sid & w3 & Hsheet & H).
  unfold ret in H. injection H as <- <-.
  pose proof (findOrCreateFolder_ticks (backupFolderName project)
                (GOOGLE_DRIVE_FOLDER_ID (env w)) w) as (Ht & Hc & _).
  fold (backupFolderName project) in Hfolder.
  rewrite Hfolder in Ht, Hc. simpl in Ht, Hc.
  rewrite Hc, Ht in *.
  exists folderId, w1, sid.
  split; [exact Hfolder | split; [exact Hsheet | reflexivity]].
Qed.

(** A search that returned, for a plain name: the identifier is that of
    the first folder the search lists afterwards, and the store gained at
    most that folder. *)
Lemma findOrCreateFolder_Ok_plain folderName parent w fid w1 :
  plain folderName = true -> plain parent = true ->
  findOrCreateFolder folderName (Some parent) w = (Ok fid, w1) ->
  exists f rest,
    filter (isFolderNamed folderName parent) (files (drive w1)) = f :: rest
    /\ id f = fid
    /\ documents (drive w1) = documents (drive w)
    /\ (files (drive w1) = files (drive w)
        \/ filter (isFolderNamed folderName parent) (files (drive w)) = []
           /\ files (drive w1) = folder fid folderName parent :: files (drive w)).
Proof.
  intros Hn Hp.
  unfold findOrCreateFolder, bind, drive_call.
  destruct (drive_faults w (drive_calls w)); [discriminate|].
  rewrite (files_list_folderQuery folderName parent Hn Hp).
  destruct (filter (isFolderNamed folderName parent) (files (drive w)))
    as [|first rest] eqn:Hsearch.
  - simpl. destruct (drive_faults w (S (drive_calls w))); [discriminate|].
    simpl. unfold ret. intros H. injection H as <- <-. simpl.
    change {| id := mint (next_id (drive w)); name := folderName;
              mimeType := folderMime; parents := [parent]; trashed := false |}
      with (folder (mint (next_id (drive w))) folderName parent).
    exists (folder (mint (next_id (drive w))) folderName parent), [].
    rewrite isFolderNamed_folder, Hsearch. repeat split. now right.
  - unfold ret. intros H. injection H as <- <-. simpl.
    exists first, rest. repeat split; [exact Hsearch | now left].
Qed.

Lemma isFolderNamed_spreadsheetFile folderName parent sid fileName folderId :
  isFolderNamed folderName parent (spreadsheetFile sid fileName folderId) = false.
Proof.
  unfold isFolderNamed, spreadsheetFile. simpl.
  now rewrite andb_false_r.
Qed.

(** X13. Where a successful backup lands.  For a project whose backup
    folder name and whose root folder id hold no single quote and no
    backslash, with the clock reading [date]T[time]: the reported folder
    is the first non-trashed folder of the name "<project name> - Asana
    Backup" under the root, the reported document is a new file named
    "Backup_<date>" whose parent is that folder, and the reported
    timestamp is [date]. *)
Theorem backup_lands_in_named_folder project tasks w r w' parent date time :
  createProjectBackup project tasks w = (Ok r, w') ->
  GOOGLE_DRIVE_FOLDER_ID (env w) = Some parent ->
  plain parent = true ->
  plain (backupFolderName project) = true ->
  clock w (ticks w) = date ++ String "T" time ->
  lacks "T" date = true ->
  exists fid sid f rest below,
    r = successResult project (List.length tasks) fid sid date
    /\ files (drive w') = spreadsheetFile sid ("Backup_" ++ date) fid :: below
    /\ filter (isFolderNamed (backupFolderName project) parent) below = f :: rest
    /\ id f = fid.
Proof.
  intros Hrun Hroot Hp Hn Hclock Hdate.
  apply createProjectBackup_steps in Hrun as (fid & w1 & sid & Hfolder & Hsheet & ->).
  rewrite Hroot in Hfolder. rewrite Hclock, split_head_date in * by exact Hdate.
  apply (findOrCreateFolder_Ok_plain _ _ _ _ _ Hn Hp) in Hfolder
    as (f & rest & Hsearch & Hid & _).
  apply createTasksSpreadsheet_run in Hsheet as (_ & _ & _ & Hfiles & _).
  exists fid, sid, f, rest, (files (drive w1)).
  now repeat split.
Qed.

Lemma backup_lands_in_named_folder_witness :
  exists fid sid f rest below,
    successResult projectAlpha 1 "f1" "id0" "2024-05-01"
    = successResult projectAlpha (List.length [taskDone]) fid sid "2024-05-01"
    /\ files (drive (snd (createProjectBackup projectAlpha [taskDone]
                            (worldOf envConfigured silentAsana driveWithFolders))))
       = spreadsheetFile sid ("Backup_" ++ "2024-05-01") fid :: below
    /\ filter (isFolderNamed (backupFolderName projectAlpha) "root") below = f :: rest
    /\ id f = fid.
Proof.
  apply (backup_lands_in_named_folder projectAlpha [taskDone]
           (worldOf envConfigured silentAsana driveWithFolders)
           (successResult projectAlpha 1 "f1" "id0" "2024-05-01")
           (snd (createProjectBackup projectAlpha [taskDone]
                   (worldOf envConfigured silentAsana driveWithFolders)))
           "root" "2024-05-01" "10:00:00.000Z").
  - vm_compute. reflexivity.
  - reflexivity.
  - reflexivity.
  - reflexivity.
  - reflexivity.
  - reflexivity.
Defined.

(** X14. Backing the same project up again reuses its folder.  For a
    project whose backup folder name and root folder id hold no single
    quote and no backslash, a second successful backup right after a first
    one reports the same folder and adds to the store exactly one file, the
    new document in that folder, and one document; no second folder is
    created and the first backup's document is still there. *)
Theorem second_backup_reuses_folder project tasks1 tasks2 w r1 w1 r2 w2 parent :
  createProjectBackup project tasks1 w = (Ok r1, w1) ->
  createProjectBackup project tasks2 w1 = (Ok r2, w2) ->
  GOOGLE_DRIVE_FOLDER_ID (env w) = Some parent ->
  plain parent = true ->
  plain (backupFolderName project) = true ->
  BackupResult.folderId r2 = BackupResult.folderId r1
  /\ exists fid sid fileName doc,
       BackupResult.folderId r2 = Some fid
       /\ BackupResult.spreadsheetId r2 = Some sid
       /\ files (drive w2) = spreadsheetFile sid fileName fid :: files (drive w1)
       /\ documents (drive w2) = doc :: documents (drive w1)
       /\ spreadsheetId doc = sid.
Proof.
  intros Hrun1 Hrun2 Hroot Hp Hn.
  assert (Henv : env w1 = env w).
  { pose proof (createProjectBackup_storeSide project tasks1 w) as ((He & _) & _).
    now rewrite Hrun1 in He. }
  apply createProjectBackup_steps in Hrun1 as (fid1 & v1 & sid1 & Hfolder1 & Hsheet1 & ->).
  apply createProjectBackup_steps in Hrun2 as (fid2 & v2 & sid2 & Hfolder2 & Hsheet2 & ->).
  rewrite Henv in Hfolder2. rewrite Hroot in Hfolder1, Hfolder2.
  apply (findOrCreateFolder_Ok_plain _ _ _ _ _ Hn Hp) in Hfolder1
    as (f1 & rest1 & Hsearch1 & Hid1 & _).
  apply createTasksSpreadsheet_run in Hsheet1 as (_ & _ & _ & Hfiles1 & _).
  simpl in Hfiles1.
  apply (findOrCreateFolder_Ok_plain _ _ _ _ _ Hn Hp) in Hfolder2
    as (f2 & rest2 & Hsearch2 & Hid2 & Hdocs2 & Hfiles2).
  apply createTasksSpreadsheet_run in Hsheet2 as (_ & _ & _ & Hfiles3 & Hdocs3).
  simpl in Hfiles3, Hdocs3.
  assert (Hbefore :
    filter (isFolderNamed (backupFolderName project) parent) (files (drive w1))
    = f1 :: rest1).
  { rewrite Hfiles1. simpl. now rewrite isFolderNamed_spreadsheetFile. }
  destruct Hfiles2 as [Hsame | [Hnone _]]; [|congruence].
  rewrite Hsame, Hbefore in Hsearch2. injection Hsearch2 as <- <-.
  subst fid1 fid2.
  split; [reflexivity|].
  eexists (id f1), sid2, _, _. simpl.
  rewrite Hfiles3, Hdocs3, Hsame, Hdocs2.
  repeat split.
Qed.

Lemma second_backup_reuses_folder_witness :
  BackupResult.folderId (successResult projectBeta 1 "id0" "id2" "2024-05-01")
  = BackupResult.folderId (successResult projectBeta 0 "id0" "id1" "2024-05-01")
  /\ exists fid sid fileName doc,
       BackupResult.folderId (successResult projectBeta 1 "id0" "id2" "2024-05-01")
       = Some fid
       /\ BackupResult.spreadsheetId
            (successResult projectBeta 1 "id0" "id2" "2024-05-01") = Some sid
       /\ files (drive (snd (createProjectBackup projectBeta [taskDone]
                               (snd (createProjectBackup projectBeta []
                                       (worldOf envConfigured silentAsana emptyDrive))))))
          = spreadsheetFile sid fileName fid
              :: files (drive (snd (createProjectBackup projectBeta []
                                      (worldOf envConfigured silentAsana emptyDrive))))
       /\ documents (drive (snd (createProjectBackup projectBeta [taskDone]
                                   (snd (createProjectBackup projectBeta []
                                           (worldOf envConfigured silentAsana emptyDrive))))))
          = doc :: documents (drive (snd (createProjectBackup projectBeta []
                                            (worldOf envConfigured silentAsana emptyDrive))))
       /\ spreadsheetId doc = sid.
Proof.
  apply (second_backup_reuses_folder projectBeta [] [taskDone]
           (worldOf envConfigured silentAsana emptyDrive)
           (successResult projectBeta 0 "id0" "id1" "2024-05-01")
           (snd (createProjectBackup projectBeta []
                   (worldOf envConfigured silentAsana emptyDrive)))
           (successResult projectBeta 1 "id0" "id2" "2024-05-01")
           (snd (createProjectBackup projectBeta [taskDone]
                   (snd (createProjectBackup projectBeta []
                           (worldOf envConfigured silentAsana emptyDrive)))))
           "root").
  - vm_compute. reflexivity.
  - vm_compute. reflexivity.
  - reflexivity.
  - reflexivity.
  - reflexivity.
Defined.

(** ** From the pages of the source to the rows of the document *)

Lemma taskRow_width (task : Task.t) :
  List.length (taskRow task) = List.length headers
  /\ Forall (fun c => exists s, c = CStr s) (taskRow task).
Proof.
  split; [reflexivity|].
  unfold taskRow. rewrite or_or_default, !or_default_empty.
  repeat constructor; try (eexists; reflexivity).
  - destruct (JS.flag (Task.completed task)); eexists; reflexivity.
  - destruct (Task.assignee task) as [a|]; simpl.
    + rewrite or_default_populated. eexists; reflexivity.
    + eexists; reflexivity.
Qed.

(** X15. Every fetched task reaches the document.  When the source
    answers with a finite sequence of pages and the backup of the project
    returns, the reported task count is the number of tasks over all the
    pages, and the Tasks tab of the reported document holds the header row
    followed by one row per task, in page order. *)
Theorem backup_lists_every_task fuel project w pages r w' :
  Pages (asana w) (env w) (Project.gid project) (asana_log w) None pages ->
  List.length pages <= fuel ->
  backupAttempt fuel project w = (Ok r, w') ->
  BackupResult.tasksCount r = Some (List.length (concat (map data pages)))
  /\ exists sid,
       BackupResult.spreadsheetId r = Some sid
       /\ tabValues sid "Tasks" (drive w')
          = Some (headers :: map taskRow (concat (map data pages))).
Proof.
  intros Hpages Hfuel Hrun. unfold backupAttempt in Hrun.
  apply bind_Ok in Hrun as (tasks & w1 & Hfetch & Hrun).
  unfold fetchProjectTasks in Hfetch.
  rewrite (fetchLoop_pages _ _ _ _ _ _ Hpages w [] fuel) in Hfetch
    by (reflexivity || assumption).
  injection Hfetch as <- _.
  apply bind_Ok in Hrun as (r0 & w2 & Hbackup & Hrun).
  unfold ret in Hrun. injection Hrun as <- <-.
  apply createProjectBackup_steps in Hbackup as (fid & v & sid & _ & Hsheet & ->).
  split; [reflexivity|]. exists sid. split; [reflexivity|].
  apply createTasksSpreadsheet_Ok in Hsheet as (_ & Hdocs & _).
  match type of Hdocs with
  | _ = ?doc :: _ => change sid with (spreadsheetId doc) at 1
  end.
  now rewrite (tabValues_head _ _ _ _ Hdocs).
Qed.

Lemma backup_lists_every_task_witness :
  BackupResult.tasksCount (successResult projectAlpha 5 "id0" "id1" "2024-05-01")
  = Some (List.length
            (concat (map data
               [ pageOf [taskDone; taskTagged ["a"]] (Some "eyJ0eXAiOiJKV1Qi.2");
                 pageOf [taskTagged ["b"]] (Some "eyJ0eXAiOiJKV1Qi.3");
                 pageOf [taskTagged ["c"]; taskTagged ["d"]] None ])))
  /\ exists sid,
       BackupResult.spreadsheetId
         (successResult projectAlpha 5 "id0" "id1" "2024-05-01") = Some sid
       /\ tabValues sid "Tasks"
            (drive (snd (backupAttempt 3 projectAlpha
                           (worldOf envConfigured threePages emptyDrive))))
          = Some (headers
                  :: map taskRow
                       [taskDone; taskTagged ["a"]; taskTagged ["b"];
                        taskTagged ["c"]; taskTagged ["d"]]).
Proof.
  apply (backup_lists_every_task 3 projectAlpha
           (worldOf envConfigured threePages emptyDrive) _
           (successResult projectAlpha 5 "id0" "id1" "2024-05-01")
           (snd (backupAttempt 3 projectAlpha
                   (worldOf envConfigured threePages emptyDrive)))
           threePages_pages (le_n 3)).
  vm_compute. reflexivity.
Defined.

(** X16. The Tasks tab is a table without holes: the values written for
    any list of tasks hold one row more than there are tasks, every row has
    as many cells as the header (ten), and every cell is a text, never a
    [null] that the store would skip. *)
Theorem tasksValues_table (tasks : list Task.t) :
  List.length (tasksValues tasks) = S (List.length tasks)
  /\ Forall (fun row => List.length row = 10
                        /\ Forall (fun c => exists s, c = CStr s) row)
       (tasksValues tasks).
Proof.
  unfold tasksValues, rows. split; [simpl; now rewrite length_map|].
  constructor.
  - split; [reflexivity|]. repeat constructor; eexists; reflexivity.
  - apply Forall_map, Forall_forall. intros task _.
    destruct (taskRow_width task) as [Hlen Htext]. now split.
Qed.


Lemma fetchLoop_requests fuel gid :
  forall tasks offset w,
    exists offsets,
      asana_log (snd (fetchLoop (S fuel) gid tasks offset w))
      = (asana_log w ++ map (tasksRequest (env w) gid) (offset :: offsets))%list
      /\ Forall (fun o => JS.truthy o = true) offsets.
Proof.
  induction fuel as [|fuel IH]; intros tasks offset w.
  - exists []. split; [|constructor].
    simpl. unfold bind, getEnv, axios_get.
    destruct (tasks_api (asana w) (asana_log w) (tasksRequest (env w) gid offset))
      as [body|e]; [|reflexivity].
    destruct (JS.truthy (next_page body ?. NextPage.offset)); reflexivity.
  - change (fetchLoop (S (S fuel)) gid tasks offset w)
      with (bind (getEnv (fun e => e))
              (fun e => bind (axios_get tasks_api (tasksRequest e gid offset))
                 (fun response =>
                    if JS.truthy (next_page response ?. NextPage.offset)
                    then fetchLoop (S fuel) gid (tasks ++ data response)%list
                           (next_page response ?. NextPage.offset)
                    else ret (tasks ++ data response)%list)) w).
    unfold bind, getEnv, axios_get.
    destruct (tasks_api (asana w) (asana_log w) (tasksRequest (env w) gid offset))
      as [body|e]; [|exists []; split; [reflexivity | constructor]].
    destruct (JS.truthy (next_page body ?. NextPage.offset)) eqn:Htoken;
      [|exists []; split; [reflexivity | constructor]].
    destruct (IH (tasks ++ data body)%list (next_page body ?. NextPage.offset)
                (set_asana_log (asana_log w ++ [tasksRequest (env w) gid offset])%list w))
      as (offsets & Hlog & Hall).
    exists ((next_page body ?. NextPage.offset) :: offsets).
    split; [|now constructor].
    rewrite Hlog. simpl. now rewrite <- app_assoc.
Qed.

(** X18. Whatever the source answers, fetching the tasks of a project
    asks for pages of that project only, each with a limit of 100: the
    first request carries no offset and every later one carries a
    non-empty offset. *)
Theorem fetchProjectTasks_requests fuel projectGid w :
  exists offsets,
    asana_log (snd (fetchProjectTasks (S fuel) projectGid w))
    = (asana_log w
       ++ map (tasksRequest (env w) projectGid) (None :: offsets))%list
    /\ Forall (fun o => JS.truthy o = true) offsets.
Proof. apply fetchLoop_requests. Qed.
